(** * Backtesting core of the stock strategy backtester (backend/main.py)

    The development embeds [SMAStrategy] ([next], [_evaluate_condition],
    [notify_trade]), [run_backtest] and the [/backtest/test] handler of
    backend/main.py.  The strategy runs on top of the backtrader library;
    the parts of backtrader that the strategy calls (moving average,
    broker, the scheduling of [next]) are modelled in [Module Backtrader]
    with the library's default parameters, since main.py changes none of
    them apart from cash and commission.

    Numbers: Python floats are idealised as rationals [Q]; the results that
    numpy or backtrader leave non-finite (NaN, inf) are the single value
    [NaN] of [pyfloat]. *)

From Stdlib Require Import List String Ascii Bool Arith ZArith QArith Qround Lia Lqa.
From Stdlib Require Import DecimalString Sorted Permutation.
Import ListNotations.

(** ** Python values *)

Module Python.

(** A float: a finite value or a non-finite one. *)
Inductive pyfloat : Type :=
| Fin (q : Q)
| NaN.

(** Comparisons of floats: every comparison with NaN is false. *)
Definition Qlt_bool (a b : Q) : bool := negb (Qle_bool b a).

Definition fgt (a b : pyfloat) : bool :=
  match a, b with Fin x, Fin y => Qlt_bool y x | _, _ => false end.
Definition flt (a b : pyfloat) : bool :=
  match a, b with Fin x, Fin y => Qlt_bool x y | _, _ => false end.
Definition fge (a b : pyfloat) : bool :=
  match a, b with Fin x, Fin y => Qle_bool y x | _, _ => false end.
Definition fle (a b : pyfloat) : bool :=
  match a, b with Fin x, Fin y => Qle_bool x y | _, _ => false end.

(** [x != 0] on floats: true for NaN. *)
Definition fnonzero (a : pyfloat) : bool :=
  match a with Fin x => negb (Qeq_bool x 0) | NaN => true end.

Definition fmul (a b : pyfloat) : pyfloat :=
  match a, b with Fin x, Fin y => Fin (x * y) | _, _ => NaN end.

(** Division; a zero divisor gives a non-finite result. *)
Definition fdiv (a b : pyfloat) : pyfloat :=
  match a, b with
  | Fin x, Fin y => if Qeq_bool y 0 then NaN else Fin (x / y)
  | _, _ => NaN
  end.

(** Equality of floats up to the representation of the rational. *)
Definition feq (a b : pyfloat) : Prop :=
  match a, b with
  | Fin x, Fin y => x == y
  | NaN, NaN => True
  | _, _ => False
  end.

(** [str.lower()] on the ASCII range. *)
Definition lower_char (c : ascii) : ascii :=
  let n := nat_of_ascii c in
  if (65 <=? n)%nat && (n <=? 90)%nat then ascii_of_nat (n + 32) else c.

Fixpoint lower (s : string) : string :=
  match s with
  | EmptyString => EmptyString
  | String c s' => String (lower_char c) (lower s')
  end.

Fixpoint startswith (sub s : string) : bool :=
  match sub, s with
  | EmptyString, _ => true
  | String a sub', String b s' => Ascii.eqb a b && startswith sub' s'
  | String _ _, EmptyString => false
  end.

(** [sub in s] for strings. *)
Fixpoint py_in (sub s : string) : bool :=
  startswith sub s ||
  match s with
  | EmptyString => false
  | String _ s' => py_in sub s'
  end.



(** [round(x, 2)]: nearest multiple of 1/100, ties to the even one. *)
Definition round_half_even (q : Q) : Z :=
  let f := Qfloor q in
  let r := q - inject_Z f in
  if Qlt_bool r (1 # 2) then f
  else if Qlt_bool (1 # 2) r then (f + 1)%Z
  else if Z.even f then f else (f + 1)%Z.

Definition round2 (q : Q) : Q := inject_Z (round_half_even (q * 100)) / 100.

Definition fround2 (a : pyfloat) : pyfloat :=
  match a with Fin x => Fin (round2 x) | NaN => NaN end.

End Python.
Import Python.

(** ** The request model of main.py *)

Record Rule : Type := mkRule {
  if_condition : string;
  then_action : string;
  else_action : string
}.

(** [SMAStrategy._evaluate_condition]. *)
Definition _evaluate_condition (rule : Rule) (price sma : pyfloat) : bool :=
  let condition := lower (if_condition rule) in
  if py_in "price > sma" condition then fgt price sma
  else if py_in "price < sma" condition then flt price sma
  else if py_in "price >= sma" condition then fge price sma
  else if py_in "price <= sma" condition then fle price sma
  else fgt price sma.

(** ** More Python values: exceptions, list indexing *)

Module PyRuntime.

Inductive exn : Type :=
| ZeroDivisionError
| IndexError
| ValueError (msg : string)
| HTTPException (status_code : Z) (detail : string)
| OtherError (msg : string).

(** The result of a call that may raise. *)
Inductive outcome (A : Type) : Type :=
| Returned (a : A)
| Raised (e : exn).
Arguments Returned {A} a.
Arguments Raised {A} e.

Definition bind {A B} (m : outcome A) (k : A -> outcome B) : outcome B :=
  match m with
  | Returned a => k a
  | Raised e => Raised e
  end.

(** The bound of a slice: negative indices count from the end, and the
    result is clamped to the list. *)
Definition slice_bound (n i : Z) : Z :=
  if (i <? 0)%Z then Z.max 0 (i + n) else Z.min i n.

(** [l[a:b]]. *)
Definition py_slice {A} (l : list A) (a b : Z) : list A :=
  let n := Z.of_nat (List.length l) in
  let a' := slice_bound n a in
  let b' := slice_bound n b in
  firstn (Z.to_nat (b' - a')) (skipn (Z.to_nat a') l).

Fixpoint set_nth {A} (l : list A) (i : nat) (v : A) : list A :=
  match l, i with
  | [], _ => []
  | _ :: l', O => v :: l'
  | x :: l', S i' => x :: set_nth l' i' v
  end.

(** [l[i] = v]: IndexError outside [-len(l), len(l)). *)
Definition py_setitem {A} (l : list A) (i : Z) (v : A) : option (list A) :=
  let n := Z.of_nat (List.length l) in
  if ((i <? - n) || (n <=? i))%Z then None
  else Some (set_nth l (Z.to_nat (if (i <? 0)%Z then i + n else i)) v).

(** [math.fsum]. *)
Definition fsum (l : list Q) : Q := fold_right Qplus 0 l.

End PyRuntime.
Import PyRuntime.

(** ** The parts of backtrader the strategy runs on

    backtrader is a library the repository imports; its code is not in the
    repository.  Each definition below follows the library function named
    in its comment, on the path that one data feed and market orders take.

    Library defaults that main.py leaves in place: sizer [FixedSize] with
    [stake = 1]; market orders, filled at the opening price of the bar
    after the one they were created on; percentage commission on a
    stock-like asset; [checksubmit = True], [shortcash = True]; no
    slippage, no cheat-on-open/close; [runonce = True], [preload = True]. *)

Module Backtrader.

(** A bar of the data feed. *)
Record Bar : Type := mkBar {
  bar_date : Z;
  bar_open : Q;
  bar_close : Q
}.

(** *** indicators/basicops.py: [Average] (the line behind SMA) *)

(** [Average.once(start, end)]:
    [for i in range(start, end): dst[i] = fsum(src[i-period+1:i+1]) / period]. *)
Fixpoint once_from (src : list Q) (period : Z) (i : Z) (steps : nat)
    (dst : list pyfloat) : outcome (list pyfloat) :=
  match steps with
  | O => Returned dst
  | S k =>
      if (period =? 0)%Z then Raised ZeroDivisionError
      else
        let v := fsum (py_slice src (i - period + 1) (i + 1)) / inject_Z period in
        match py_setitem dst i (Fin v) with
        | None => Raised IndexError
        | Some dst' => once_from src period (i + 1) k dst'
        end
  end.

Definition Average_once (src : list Q) (period start end_ : Z)
    (dst : list pyfloat) : outcome (list pyfloat) :=
  once_from src period start (Z.to_nat (end_ - start)) dst.

(** [_once] of the indicator in run-once mode: the line is forwarded to the
    length of the data (NaN-filled), then [oncestart(minperiod - 1, minperiod)]
    and [once(minperiod, buflen)] fill it; [preonce] does nothing.  The
    minimum period of [Average] is its [period]. *)
Definition SMA_once (src : list Q) (period : Z) : outcome (list pyfloat) :=
  let buflen := Z.of_nat (List.length src) in
  let dst := repeat NaN (List.length src) in
  bind (Average_once src period (period - 1) period dst) (fun dst1 =>
  Average_once src period period buflen dst1).

(** The minimum period of the strategy: that of the data (1) or of the
    indicator, whichever is larger. *)
Definition minperiod (period : Z) : Z := Z.max 1 period.

(** *** position.py *)

Record Position : Type := mkPosition {
  pos_size : Z;
  pos_price : Q
}.

(** [Position.__bool__]. *)
Definition Position_bool (p : Position) : bool := negb (pos_size p =? 0)%Z.

(** [Position.update(size, price)]: the new position, and the [opened] and
    [closed] parts of [size]. *)
Definition Position_update (p : Position) (size : Z) (price : Q)
    : Position * Z * Z :=
  let oldsize := pos_size p in
  let newsize := (oldsize + size)%Z in
  let avg := (pos_price p * inject_Z oldsize + inject_Z size * price)
             / inject_Z newsize in
  if (newsize =? 0)%Z then (mkPosition newsize 0, 0%Z, size)
  else if (oldsize =? 0)%Z then (mkPosition newsize price, size, 0%Z)
  else if (0 <? oldsize)%Z then
    if (0 <? size)%Z then (mkPosition newsize avg, size, 0%Z)
    else if (0 <? newsize)%Z then (mkPosition newsize (pos_price p), 0%Z, size)
    else (mkPosition newsize price, newsize, (- oldsize)%Z)
  else
    if (size <? 0)%Z then (mkPosition newsize avg, size, 0%Z)
    else if (newsize <? 0)%Z then (mkPosition newsize (pos_price p), 0%Z, size)
    else (mkPosition newsize price, newsize, (- oldsize)%Z).

(** *** comminfo.py, for a stock-like asset with percentage commission *)

Definition getvaluesize (size : Z) (price : Q) : Q := inject_Z size * price.

Definition getcommission (commission : Q) (size : Z) (price : Q) : Q :=
  inject_Z (Z.abs size) * commission * price.

Definition profitandloss (size : Z) (price newprice : Q) : Q :=
  inject_Z size * (newprice - price).

(** *** order.py *)

(** A market order: [ord_size] is positive for a buy and negative for a
    sell; [created_price] is the close of the bar it was created on. *)
Record Order : Type := mkOrder {
  ord_size : Z;
  created_price : Q
}.

(** What an executed order reports. *)
Record ExecBit : Type := mkExecBit {
  ex_dt : Z;
  ex_price : Q;
  ex_closed : Z;
  ex_closedcomm : Q;
  ex_opened : Z;
  ex_openedcomm : Q;
  ex_pnl : Q
}.

(** *** brokers/bbroker.py *)

Record BackBroker : Type := mkBroker {
  cash : Q;
  commission : Q;
  position : Position;
  submitted : list Order;
  value : Q
}.

(** [broker.getvalue()]: the value computed at the last [next] of the
    broker. *)
Definition getvalue (b : BackBroker) : Q := value b.

(** [Cerebro.broker] after [setcash] and [setcommission]. *)
Definition broker_init (startcash comm : Q) : BackBroker :=
  mkBroker startcash comm (mkPosition 0 0) [] startcash.

(** [submit]: with [checksubmit] the order waits in [submitted]. *)
Definition submit (b : BackBroker) (o : Order) : BackBroker :=
  mkBroker (cash b) (commission b) (position b) (submitted b ++ [o]) (value b).

(** [_execute] with [ago = None]: the cash that would remain if the order
    were filled at the price it was created with. *)
Definition pseudo_execute (comm cash0 : Q) (pos : Position) (o : Order)
    : Q * Position :=
  let size := ord_size o in
  let price := created_price o in
  if (size =? 0)%Z then (cash0, pos)
  else
    let '(pos', opened, closed) := Position_update pos size price in
    let cash1 :=
      if (closed =? 0)%Z then cash0
      else cash0 + getvaluesize (- closed) price - getcommission comm closed price in
    let cash2 :=
      if (opened =? 0)%Z then cash1
      else cash1 - getvaluesize opened price - getcommission comm opened price in
    (cash2, pos').

(** [check_submitted]: the orders that the cash covers are accepted, the
    others are rejected (Margin). *)
Fixpoint check_submitted (comm cash0 : Q) (pos : Position) (orders : list Order)
    : list Order :=
  match orders with
  | [] => []
  | o :: rest =>
      let '(cash1, pos1) := pseudo_execute comm cash0 pos o in
      if Qle_bool 0 cash1 then o :: check_submitted comm cash1 pos1 rest
      else check_submitted comm cash1 pos1 rest
  end.

(** [_execute] with [ago = 0]: the fill of an accepted order at [price]. *)
Definition _execute (b : BackBroker) (o : Order) (dt : Z) (price : Q)
    : BackBroker * option ExecBit :=
  let size := ord_size o in
  if (size =? 0)%Z then (b, None)
  else
    let pprice_orig := pos_price (position b) in
    let '(_, opened, closed) := Position_update (position b) size price in
    let pnl := profitandloss (- closed) pprice_orig price in
    let closedcomm :=
      if (closed =? 0)%Z then 0 else getcommission (commission b) closed price in
    let cash1 :=
      if (closed =? 0)%Z then cash b
      else cash b + getvaluesize (- closed) pprice_orig + pnl - closedcomm in
    let cash2 :=
      cash1 - getvaluesize opened price - getcommission (commission b) opened price in
    let nocash := negb (opened =? 0)%Z && Qlt_bool cash2 0 in
    let opened' := if nocash then 0%Z else opened in
    let openedcomm :=
      if nocash || (opened =? 0)%Z then 0
      else getcommission (commission b) opened price in
    let cash' := if nocash || (opened =? 0)%Z then cash1 else cash2 in
    let execsize := (closed + opened')%Z in
    if (execsize =? 0)%Z then
      (mkBroker cash' (commission b) (position b) (submitted b) (value b), None)
    else
      let '(pos', _, _) := Position_update (position b) execsize price in
      (mkBroker cash' (commission b) pos' (submitted b) (value b),
       Some (mkExecBit dt price closed closedcomm opened' openedcomm pnl)).

(** The accepted orders are filled in turn at the open of the bar. *)
Fixpoint execute_all (b : BackBroker) (orders : list Order) (bar : Bar)
    : BackBroker * list ExecBit :=
  match orders with
  | [] => (b, [])
  | o :: rest =>
      let '(b1, ex) := _execute b o (bar_date bar) (bar_open bar) in
      let '(b2, exs) := execute_all b1 rest bar in
      (b2, match ex with Some e => e :: exs | None => exs end)
  end.

(** [BackBroker.next]: check and fill what was submitted during the
    previous bar, then mark the portfolio to the close of this bar. *)
Definition BackBroker_next (b : BackBroker) (bar : Bar)
    : BackBroker * list ExecBit :=
  let accepted :=
    check_submitted (commission b) (cash b) (position b) (submitted b) in
  let b0 := mkBroker (cash b) (commission b) (position b) [] (value b) in
  let '(b1, exs) := execute_all b0 accepted bar in
  (mkBroker (cash b1) (commission b1) (position b1) []
     (cash b1 + getvaluesize (pos_size (position b1)) (bar_close bar)),
   exs).

(** *** trade.py *)

Record Trade : Type := mkTrade {
  tr_size : Z;
  tr_price : Q;
  tr_commission : Q;
  tr_pnl : Q;
  tr_pnlcomm : Q;
  dtopen : Z;
  dtclose : Z;
  isclosed : bool;
  justopened : bool
}.

Definition Trade_new : Trade := mkTrade 0 0 0 0 0 0 0 false false.

(** [Trade.update]. *)
Definition Trade_update (t : Trade) (dt : Z) (size : Z) (price comm : Q) : Trade :=
  if (size =? 0)%Z then t
  else
    let oldsize := tr_size t in
    let newsize := (oldsize + size)%Z in
    let commission' := tr_commission t + comm in
    let opened_now := (oldsize =? 0)%Z in
    let closed_now := negb (oldsize =? 0)%Z && (newsize =? 0)%Z in
    let increased := (Z.abs oldsize <? Z.abs newsize)%Z in
    let price' :=
      if increased
      then (inject_Z oldsize * tr_price t + inject_Z size * price) / inject_Z newsize
      else tr_price t in
    let pnl :=
      if increased then 0 else profitandloss (- size) (tr_price t) price in
    let pnl' := tr_pnl t + pnl in
    mkTrade newsize price' commission' pnl' (pnl' - commission')
      (if opened_now then dt else dtopen t)
      (if closed_now then dt else dtclose t)
      closed_now opened_now.

(** [Strategy._addnotification] for an executed order: the running trade
    is updated with the closed and the opened part, and the trades to be
    notified are collected. *)
Definition _addnotification (cur : Trade) (ex : ExecBit) : Trade * list Trade :=
  let t1 :=
    if (ex_closed ex =? 0)%Z then cur
    else Trade_update cur (ex_dt ex) (ex_closed ex) (ex_price ex) (ex_closedcomm ex) in
  let pend1 :=
    if negb (ex_closed ex =? 0)%Z && isclosed t1 then [t1] else [] in
  let t2 :=
    if (ex_opened ex =? 0)%Z then t1
    else Trade_update (if isclosed t1 then Trade_new else t1)
           (ex_dt ex) (ex_opened ex) (ex_price ex) (ex_openedcomm ex) in
  let pend2 :=
    if negb (ex_opened ex =? 0)%Z && isclosed t2 then [t2] else [] in
  let pend3 := if justopened t2 then [t2] else [] in
  (t2, pend1 ++ pend2 ++ pend3).

Fixpoint addnotifications (cur : Trade) (exs : list ExecBit) : Trade * list Trade :=
  match exs with
  | [] => (cur, [])
  | ex :: rest =>
      let '(t1, p1) := _addnotification cur ex in
      let '(t2, p2) := addnotifications t1 rest in
      (t2, p1 ++ p2)
  end.

(** [FixedSize.stake]. *)
Definition stake : Z := 1.

(** What the strategy reads at the current bar. *)
Record Lines : Type := mkLines {
  data_close0 : Q;
  data_date0 : Z;
  sma0 : pyfloat
}.

(** [Strategy.buy()] and [Strategy.sell()] with no argument: a market
    order of the sizer's stake on the first data. *)
Definition buy (env : Lines) (b : BackBroker) : BackBroker :=
  if (stake =? 0)%Z then b else submit b (mkOrder (Z.abs stake) (data_close0 env)).

Definition sell (env : Lines) (b : BackBroker) : BackBroker :=
  if (stake =? 0)%Z then b else submit b (mkOrder (- Z.abs stake) (data_close0 env)).

End Backtrader.
Import Backtrader.

(** ** SMAStrategy (main.py) *)

Record EquityPoint : Type := mkEquityPoint {
  date : Z;
  portfolio_value : Q;
  price : Q;
  sma : pyfloat
}.

Record TradeRecord : Type := mkTradeRecord {
  entry_date : Z;
  exit_date : Z;
  pnl : Q;
  pnl_net : Q
}.

Record SMAStrategy : Type := mkStrategy {
  trades : list TradeRecord;
  equity_curve : list EquityPoint
}.

(** [SMAStrategy.__init__]: both lists start empty (the indicator it
    creates is [SMA_once] of the engine below). *)
Definition SMAStrategy_init : SMAStrategy := mkStrategy [] [].

(** The action chosen in [next]. *)
Definition chosen_action (rule : Rule) (env : Lines) : string :=
  if _evaluate_condition rule (Fin (data_close0 env)) (sma0 env)
  then then_action rule
  else else_action rule.

(** [SMAStrategy.next]. *)
Definition next (rule : Rule) (env : Lines) (self : SMAStrategy)
    (broker : BackBroker) : SMAStrategy * BackBroker :=
  let current_price := data_close0 env in
  let sma_value := sma0 env in
  let self' :=
    mkStrategy (trades self)
      (equity_curve self ++
       [mkEquityPoint (data_date0 env) (getvalue broker) current_price sma_value]) in
  let condition_met := _evaluate_condition rule (Fin current_price) sma_value in
  let action := if condition_met then then_action rule else else_action rule in
  if String.eqb action "buy" && negb (Position_bool (position broker))
  then (self', buy env broker)
  else if String.eqb action "sell" && Position_bool (position broker)
  then (self', sell env broker)
  else (self', broker).

(** [SMAStrategy.notify_trade]. *)
Definition notify_trade (trade : Trade) (self : SMAStrategy) : SMAStrategy :=
  if isclosed trade
  then mkStrategy
         (trades self ++
          [mkTradeRecord (dtopen trade) (dtclose trade) (tr_pnl trade) (tr_pnlcomm trade)])
         (equity_curve self)
  else self.

(** ** The run of the engine over the data ([Cerebro.run], run-once mode) *)

Module Cerebro.

Record RunState : Type := mkRun {
  strategy : SMAStrategy;
  broker : BackBroker;
  running_trade : Trade;
  notified : list Trade
}.

(** [Strategy._notify]: every pending trade goes to [notify_trade]. *)
Definition _notify (pend : list Trade) (s : SMAStrategy) : SMAStrategy :=
  fold_left (fun s t => notify_trade t s) pend s.

(** One bar: the broker first ([_brokernotify]), then the notifications,
    then [next] once the minimum period is reached, [prenext] (which the
    strategy does not override) before that.  [notified] keeps the trades
    that were notified, for the statements below. *)
Definition bar_step (rule : Rule) (mp : Z) (line : list pyfloat) (i : nat)
    (bar : Bar) (st : RunState) : RunState :=
  let '(b1, exs) := BackBroker_next (broker st) bar in
  let '(t1, pend) := addnotifications (running_trade st) exs in
  let s1 := _notify pend (strategy st) in
  if (mp <=? Z.of_nat (S i))%Z then
    let env := mkLines (bar_close bar) (bar_date bar) (nth i line NaN) in
    let '(s2, b2) := next rule env s1 b1 in
    mkRun s2 b2 t1 (notified st ++ pend)
  else mkRun s1 b1 t1 (notified st ++ pend).

Fixpoint _runonce (rule : Rule) (mp : Z) (line : list pyfloat) (i : nat)
    (bars : list Bar) (st : RunState) : RunState :=
  match bars with
  | [] => st
  | bar :: rest => _runonce rule mp line (S i) rest (bar_step rule mp line i bar st)
  end.

Definition start (startcash comm : Q) : RunState :=
  mkRun SMAStrategy_init (broker_init startcash comm) Trade_new [].

(** [cerebro.run()] with one data feed and one [SMAStrategy]. *)
Definition run (sma_period : Z) (rule : Rule) (startcash comm : Q)
    (data : list Bar) : outcome RunState :=
  bind (SMA_once (map bar_close data) sma_period) (fun line =>
  Returned (_runonce rule (minperiod sma_period) line 0 data (start startcash comm))).

End Cerebro.

(** ** numpy *)

Module Numpy.

Definition fadd (a b : pyfloat) : pyfloat :=
  match a, b with Fin x, Fin y => Fin (x + y) | _, _ => NaN end.

Definition fsub (a b : pyfloat) : pyfloat :=
  match a, b with Fin x, Fin y => Fin (x - y) | _, _ => NaN end.

(** [np.diff]. *)
Fixpoint diff_from (prev : Q) (l : list Q) : list Q :=
  match l with
  | [] => []
  | x :: rest => (x - prev) :: diff_from x rest
  end.

Definition diff (l : list Q) : list Q :=
  match l with
  | [] => []
  | x :: rest => diff_from x rest
  end.

(** Element-wise [a / b] of two arrays of one length. *)
Definition divide (a b : list Q) : list pyfloat :=
  map (fun xy => fdiv (Fin (fst xy)) (Fin (snd xy))) (combine a b).

Definition sum (l : list pyfloat) : pyfloat := fold_right fadd (Fin 0) l.

(** [np.mean]: NaN on an empty array. *)
Definition mean (l : list pyfloat) : pyfloat :=
  fdiv (sum l) (Fin (inject_Z (Z.of_nat (List.length l)))).

Section Std.
Variable sqrt : Q -> Q.

Definition fsqrt (a : pyfloat) : pyfloat :=
  match a with Fin x => Fin (sqrt x) | NaN => NaN end.

(** [np.std]: the square root of the mean squared deviation. *)
Definition std (l : list pyfloat) : pyfloat :=
  let m := mean l in
  fsqrt (mean (map (fun x => fmul (fsub x m) (fsub x m)) l)).

End Std.

(** A square root on rationals, truncated to fifteen decimal places. *)
Definition sqrt15 (q : Q) : Q :=
  inject_Z (Z.sqrt (Qfloor (q * inject_Z (10 ^ 30)))) / inject_Z (10 ^ 15).

End Numpy.

(** ** run_backtest (main.py) *)

Module BacktestResponse.
Record t : Type := mk {
  total_return : Q;
  win_rate : Q;
  number_of_trades : nat;
  equity_curve : list EquityPoint;
  final_portfolio_value : Q;
  sharpe_ratio : pyfloat
}.
End BacktestResponse.

Definition initial_cash : Q := 10000.

(** The local [win_rate] of [run_backtest]. *)
Definition win_rate_of (trades : list TradeRecord) : Q :=
  let winning_trades := List.length (filter (fun t => Qlt_bool 0 (pnl t)) trades) in
  let total_trades := List.length trades in
  if (0 <? total_trades)%nat
  then inject_Z (Z.of_nat winning_trades) / inject_Z (Z.of_nat total_trades) * 100
  else 0.

(** The local [returns] of [run_backtest]. *)
Definition returns_of (equity_values : list Q) : list pyfloat :=
  Numpy.divide (Numpy.diff equity_values) (removelast equity_values).

Section RunBacktest.
Variable np_sqrt : Q -> Q.

(** The local [sharpe_ratio] of [run_backtest]. *)
Definition sharpe_ratio_of (curve : list EquityPoint) : pyfloat :=
  let equity_values := map portfolio_value curve in
  let returns := returns_of equity_values in
  if fnonzero (Numpy.std np_sqrt returns)
  then fmul (fdiv (Numpy.mean returns) (Numpy.std np_sqrt returns))
            (Fin (np_sqrt 252))
  else Fin 0.

Definition run_backtest (data : list Bar) (sma_period : Z) (rule : Rule)
    : outcome BacktestResponse.t :=
  bind (Cerebro.run sma_period rule initial_cash (1 # 1000) data) (fun st =>
  let strategy := Cerebro.strategy st in
  let final_value := getvalue (Cerebro.broker st) in
  let total_return := (final_value - initial_cash) / initial_cash * 100 in
  let total_trades := List.length (trades strategy) in
  let win_rate := win_rate_of (trades strategy) in
  let sharpe_ratio := sharpe_ratio_of (equity_curve strategy) in
  Returned (BacktestResponse.mk
    (round2 total_return)
    (round2 win_rate)
    total_trades
    (equity_curve strategy)
    (round2 final_value)
    (fround2 sharpe_ratio))).

(** ** The /backtest/test handler (main.py) *)

Record BacktestRequest : Type := mkRequest {
  ticker : string;
  start_date : string;
  end_date : string;
  sma_period : Z;
  rule : Rule
}.

(** [datetime.strptime(s, "%Y-%m-%d")]: [None] stands for its ValueError. *)
Variable strptime : string -> option Z.

(** [yf.Ticker(ticker).history(start, end)], read as the bars of the feed. *)
Variable yf_history : string -> string -> string -> outcome (list Bar).

(** [str(e)], as far as the handlers put it into a detail.  The text of an
    HTTPException is taken to be its detail; this text is Starlette's and
    differs between its versions (some put the status code in front, older
    ones give the empty text).  No property below states what that text is. *)
Definition str (e : exn) : string :=
  match e with
  | ZeroDivisionError => "float division by zero"
  | IndexError => "array assignment index out of range"
  | ValueError msg => msg
  | HTTPException _ detail => detail
  | OtherError msg => msg
  end.

(** [download_stock_data]: an empty frame and every failure of the
    download become HTTP 400. *)
Definition download_stock_data (ticker start_date end_date : string)
    : outcome (list Bar) :=
  match yf_history ticker start_date end_date with
  | Returned [] =>
      Raised (HTTPException 400
                (String.append "Error downloading data: "
                   (String.append "No data found for ticker '"
                      (String.append ticker
                         "' - it may be delisted or there may be a network issue."))))
  | Returned data => Returned data
  | Raised e =>
      Raised (HTTPException 400 (String.append "Error downloading data: " (str e)))
  end.

(** The body of the [try] block of [test_backtest_strategy]. *)
Definition handler_body (request : BacktestRequest) : outcome BacktestResponse.t :=
  match strptime (start_date request), strptime (end_date request) with
  | None, _ | _, None => Raised (ValueError "time data does not match format")
  | Some start_d, Some end_d =>
      if (end_d <=? start_d)%Z
      then Raised (HTTPException 400 "Start date must be before end date")
      else
        bind (download_stock_data (ticker request) (start_date request)
                (end_date request)) (fun stock_data =>
        run_backtest stock_data (sma_period request) (rule request))
  end.

(** [test_backtest_strategy]: [except ValueError] answers 400, and
    [except Exception] (which also catches the HTTPException raised in the
    body) answers 500. *)
Definition test_backtest_strategy (request : BacktestRequest)
    : outcome BacktestResponse.t :=
  match handler_body request with
  | Returned results => Returned results
  | Raised (ValueError msg) => Raised (HTTPException 400 msg)
  | Raised e =>
      Raised (HTTPException 500 (String.append "Internal server error: " (str e)))
  end.

End RunBacktest.

(** ** Quantities used in the statements *)

(** The cash left after buying one unit at [p]. *)
Definition cash_after_buy (c k p : Q) : Q :=
  c - getvaluesize 1 p - getcommission k 1 p.

(** The cash after selling the unit bought at [pp] for [p]. *)
Definition cash_after_sell (c k pp p : Q) : Q :=
  c + getvaluesize 1 pp + profitandloss 1 pp p - getcommission k (-1) p.

(** The pending order, if any, is the one [next] can have created: a buy
    of one unit while flat, a sell of one unit while holding. *)
Definition order_matches_position (b : BackBroker) : Prop :=
  (pos_size (position b) = 0%Z \/ pos_size (position b) = 1%Z) /\
  (submitted b = [] \/
   (pos_size (position b) = 0%Z /\ exists pc, submitted b = [mkOrder 1 pc]) \/
   (pos_size (position b) = 1%Z /\ exists pc, submitted b = [mkOrder (-1) pc])).

(** ** Sample inputs *)

Definition ex_rule : Rule := mkRule "price > sma" "buy" "hold".

Definition ex_cycle_rule : Rule := mkRule "price > sma" "buy" "sell".

(** Three rising bars; with a window of 2 the second one gives the signal. *)
Definition ex_bars3 : list Bar := [mkBar 1 10 10; mkBar 2 11 11; mkBar 3 12 12].

(** The closes 10, 11, 12, 9, 8, 13 of the scenario of the specification. *)
Definition ex_bars6 : list Bar :=
  [mkBar 1 10 10; mkBar 2 11 11; mkBar 3 12 12;
   mkBar 4 9 9; mkBar 5 8 8; mkBar 6 13 13].

Definition ex_flat_broker : BackBroker := broker_init 10000 (1 # 1000).

(** The second bar of [ex_bars3] as [next] reads it. *)
Definition ex_signal : Lines := mkLines 11 2 (Fin (21 # 2)).

(** The broker after the signal and the following bar. *)
Definition ex_filled : BackBroker :=
  fst (BackBroker_next (buy ex_signal ex_flat_broker) (mkBar 3 12 12)).

(** The entry [notify_trade] appends for a closed trade. *)
Definition record_of (t : Trade) : TradeRecord :=
  mkTradeRecord (dtopen t) (dtclose t) (tr_pnl t) (tr_pnlcomm t).

(** The ledger of the strategy against the notifications of the engine:
    [trades] holds the closed ones, and the trades that were opened exceed
    the closed ones by the position that is still open. *)
Definition ledger_consistent (st : Cerebro.RunState) : Prop :=
  order_matches_position (Cerebro.broker st) /\
  tr_size (Cerebro.running_trade st) = pos_size (position (Cerebro.broker st)) /\
  trades (Cerebro.strategy st) =
    map record_of (filter isclosed (Cerebro.notified st)) /\
  List.length (filter justopened (Cerebro.notified st)) =
    (List.length (filter isclosed (Cerebro.notified st)) +
     Z.to_nat (pos_size (position (Cerebro.broker st))))%nat.

(** The answer of [run_backtest] on the six bars of the scenario, with a
    window of 2 and "buy" else "hold". *)
Definition ex_response : BacktestResponse.t :=
  match run_backtest Numpy.sqrt15 ex_bars6 2 ex_rule with
  | Returned r => r
  | Raised _ => BacktestResponse.mk 0 0 0 [] 0 NaN
  end.

(** The same with "buy" else "sell". *)
Definition ex_cycle_response : BacktestResponse.t :=
  match run_backtest Numpy.sqrt15 ex_bars6 2 ex_cycle_rule with
  | Returned r => r
  | Raised _ => BacktestResponse.mk 0 0 0 [] 0 NaN
  end.

(** An equity curve with the values 100, 110, 99. *)
Definition ex_curve : list EquityPoint :=
  [mkEquityPoint 1 100 10 (Fin 10); mkEquityPoint 2 110 11 (Fin 10);
   mkEquityPoint 3 99 9 (Fin 10)].

(** A ledger with one winning and two losing trades. *)
Definition ex_trades : list TradeRecord :=
  [mkTradeRecord 1 2 5 (49 # 10); mkTradeRecord 3 4 (-2) (-21 # 10);
   mkTradeRecord 5 6 0 (-1 # 10)].

(** A reading of "YYYY-MM-DD" as the number YYYYMMDD, for the samples. *)
Definition digit_of (c : ascii) : option Z :=
  let n := nat_of_ascii c in
  if (48 <=? n)%nat && (n <=? 57)%nat then Some (Z.of_nat (n - 48)) else None.

Fixpoint digits_of (s : string) (acc : Z) : option Z :=
  match s with
  | EmptyString => Some acc
  | String c s' =>
      if Ascii.eqb c "-"%char then digits_of s' acc
      else match digit_of c with
           | Some d => digits_of s' (acc * 10 + d)%Z
           | None => None
           end
  end.

Definition ex_strptime (s : string) : option Z :=
  if (String.length s =? 10)%nat then digits_of s 0 else None.

(** A download that always delivers the six sample bars. *)
Definition ex_history (ticker start_date end_date : string) : outcome (list Bar) :=
  Returned ex_bars6.

(** The request of test_api.py with a window of 0, and with a window of 7
    (more than the six bars). *)
Definition ex_request_zero : BacktestRequest :=
  mkRequest "AAPL" "2022-01-01" "2022-12-31" 0 ex_rule.

Definition ex_request_long : BacktestRequest :=
  mkRequest "AAPL" "2022-01-01" "2022-12-31" 7 ex_rule.

(** ** Predicates on the state of a run, for the further properties *)

(** Nothing has happened on the account: no position, no order, the cash
    of the start, no notification and an empty ledger; the points recorded
    so far all show the cash of the start. *)
Definition untouched (cash0 comm : Q) (st : Cerebro.RunState) : Prop :=
  Cerebro.broker st =
    mkBroker cash0 comm (mkPosition 0 0) [] (value (Cerebro.broker st)) /\
  value (Cerebro.broker st) == cash0 /\
  Cerebro.running_trade st = Trade_new /\
  Cerebro.notified st = [] /\
  trades (Cerebro.strategy st) = [] /\
  Forall (fun p => portfolio_value p == cash0) (equity_curve (Cerebro.strategy st)).

(** No sell order is waiting and no trade has been closed. *)
Definition never_sold (st : Cerebro.RunState) : Prop :=
  ledger_consistent st /\
  (forall pc, submitted (Cerebro.broker st) <> [mkOrder (-1) pc]) /\
  filter isclosed (Cerebro.notified st) = [].

(** A float that is a number equal to zero. *)
Definition is_zero (x : pyfloat) : Prop := exists q, x = Fin q /\ q == 0.

(** The account is not in debt: cash and value are not negative, and no
    point recorded so far shows a negative value. *)
Definition solvent (k : Q) (st : Cerebro.RunState) : Prop :=
  order_matches_position (Cerebro.broker st) /\
  commission (Cerebro.broker st) = k /\
  0 <= cash (Cerebro.broker st) /\
  0 <= value (Cerebro.broker st) /\
  Forall (fun p => 0 <= portfolio_value p) (equity_curve (Cerebro.strategy st)).

(** Prices that are not negative. *)
Definition sane_bar (bar : Bar) : Prop := 0 <= bar_open bar /\ 0 <= bar_close bar.


(** ** models.py: the tables *)

Module User.
Record t : Type := mk {
  id : Z;
  email : string;
  hashed_password : string;
  is_active : bool;
  is_premium : bool;
  created_at : Z
}.
End User.

Module BacktestRun.
Record t : Type := mk {
  id : Z;
  user_id : option Z;
  ticker : string;
  start_date : string;
  end_date : string;
  sma_period : Z;
  rule_condition : string;
  rule_then_action : string;
  rule_else_action : string;
  total_return : Q;
  win_rate : Q;
  number_of_trades : nat;
  final_portfolio_value : Q;
  sharpe_ratio : pyfloat;
  equity_curve : list EquityPoint;
  created_at : Z;
  execution_time_seconds : option Q
}.
End BacktestRun.

(** The database behind a session: the rows of the two tables in the
    order of insertion, and the last value of each id sequence.  Times are
    seconds. *)
Record Database : Type := mkDatabase {
  users : list User.t;
  backtest_runs : list BacktestRun.t;
  users_id_seq : Z;
  backtest_runs_id_seq : Z
}.

(** [ORDER BY key DESC]. *)
Fixpoint insert_desc {A} (key : A -> Z) (x : A) (l : list A) : list A :=
  match l with
  | [] => [x]
  | y :: l' =>
      if (key y <? key x)%Z then x :: y :: l' else y :: insert_desc key x l'
  end.

Definition order_by_desc {A} (key : A -> Z) (l : list A) : list A :=
  fold_right (insert_desc key) [] l.

(** [LIMIT n]: the database refuses a negative one. *)
Definition limit_rows {A} (n : Z) (l : list A) : outcome (list A) :=
  if (n <? 0)%Z then Raised (OtherError "LIMIT must not be negative")
  else Returned (firstn (Z.to_nat n) l).

(** The [backtest_data] dictionary of the authenticated handler. *)
Record BacktestData : Type := mkBacktestData {
  bd_request : BacktestRequest;
  bd_results : BacktestResponse.t;
  bd_execution_time : option Q
}.

(** *** BacktestRepository *)

(** [save_backtest_run]: add, commit, refresh. *)
Definition save_backtest_run (db : Database) (now : Z)
    (backtest_data : BacktestData) (user_id : option Z)
    : Database * BacktestRun.t :=
  let request := bd_request backtest_data in
  let results := bd_results backtest_data in
  let db_backtest :=
    BacktestRun.mk
      (backtest_runs_id_seq db + 1)%Z
      user_id
      (ticker request)
      (start_date request)
      (end_date request)
      (sma_period request)
      (if_condition (rule request))
      (then_action (rule request))
      (else_action (rule request))
      (BacktestResponse.total_return results)
      (BacktestResponse.win_rate results)
      (BacktestResponse.number_of_trades results)
      (BacktestResponse.final_portfolio_value results)
      (BacktestResponse.sharpe_ratio results)
      (BacktestResponse.equity_curve results)
      now
      (bd_execution_time backtest_data) in
  (mkDatabase (users db) (backtest_runs db ++ [db_backtest])
     (users_id_seq db) (backtest_runs_id_seq db + 1)%Z,
   db_backtest).

Definition owned_by (user_id : Z) (run : BacktestRun.t) : bool :=
  match BacktestRun.user_id run with
  | Some u => (u =? user_id)%Z
  | None => false
  end.

(** [get_user_backtests]. *)
Definition get_user_backtests (db : Database) (user_id : Z) (limit : Z)
    : outcome (list BacktestRun.t) :=
  limit_rows limit
    (order_by_desc BacktestRun.created_at
       (filter (owned_by user_id) (backtest_runs db))).

(** [get_popular_tickers]: one row per ticker with the number of its runs. *)
Definition get_popular_tickers (db : Database) (limit : Z)
    : outcome (list (string * nat)) :=
  let tickers := map BacktestRun.ticker (backtest_runs db) in
  limit_rows limit
    (order_by_desc (fun tc => Z.of_nat (snd tc))
       (map (fun t => (t, count_occ string_dec tickers t))
            (nodup string_dec tickers))).

(** *** Users, passwords and tokens *)

(** The claims of a token. *)
Record Payload : Type := mkPayload {
  sub : option string;
  exp : Z
}.

Record Token : Type := mkToken {
  access_token : string;
  token_type : string;
  token_user_id : Z
}.

Record UserCreate : Type := mkUserCreate {
  uc_email : string;
  uc_password : string
}.

Definition ACCESS_TOKEN_EXPIRE_MINUTES : Z := 30.

(** [UserRepository.get_user_by_email]. *)
Definition get_user_by_email (db : Database) (email : string) : option User.t :=
  find (fun u => String.eqb (User.email u) email) (users db).

Section Accounts.
(** passlib: [hash] draws a salt, [verify] checks a password against a
    hash. *)
Variable get_password_hash : string -> string -> string.
Variable verify_password : string -> string -> bool.
(** python-jose: [decode] fails (JWTError) on a bad signature or an
    expired token. *)
Variable jwt_encode : Payload -> string.
Variable jwt_decode : Z -> string -> option Payload.
Variable np_sqrt : Q -> Q.
Variable strptime : string -> option Z.
Variable yf_history : string -> string -> string -> outcome (list Bar).

(** [create_access_token]: a [timedelta] of zero is false in Python and
    falls to the default of 15 minutes. *)
Definition create_access_token (now : Z) (data_sub : string)
    (expires_delta : option Z) : string :=
  let expire :=
    match expires_delta with
    | Some d => if (d =? 0)%Z then (now + 15 * 60)%Z else (now + d)%Z
    | None => (now + 15 * 60)%Z
    end in
  jwt_encode (mkPayload (Some data_sub) expire).

(** [UserRepository.create_user]: the unique index on the email refuses
    a second row. *)
Definition create_user (db : Database) (now : Z) (salt email password : string)
    : outcome (Database * User.t) :=
  let hashed_password := get_password_hash salt password in
  match get_user_by_email db email with
  | Some _ => Raised (OtherError "IntegrityError")
  | None =>
      let db_user :=
        User.mk (users_id_seq db + 1)%Z email hashed_password true false now in
      Returned (mkDatabase (users db ++ [db_user]) (backtest_runs db)
                  (users_id_seq db + 1)%Z (backtest_runs_id_seq db),
                db_user)
  end.

(** [UserRepository.authenticate_user]; [None] is its [False]. *)
Definition authenticate_user (db : Database) (email password : string)
    : option User.t :=
  match get_user_by_email db email with
  | None => None
  | Some user =>
      if verify_password password (User.hashed_password user)
      then Some user else None
  end.

(** [/register]. *)
Definition register_user (db : Database) (now : Z) (salt : string)
    (user : UserCreate) : Database * outcome Token :=
  match get_user_by_email db (uc_email user) with
  | Some _ => (db, Raised (HTTPException 400 "Email already registered"))
  | None =>
      match create_user db now salt (uc_email user) (uc_password user) with
      | Raised (HTTPException c d) => (db, Raised (HTTPException c d))
      | Raised e =>
          (db, Raised (HTTPException 500
                         (String.append "Database connection error: " (str e))))
      | Returned (db', db_user) =>
          (db',
           Returned (mkToken
                       (create_access_token now (uc_email user)
                          (Some (ACCESS_TOKEN_EXPIRE_MINUTES * 60)%Z))
                       "bearer" (User.id db_user)))
      end
  end.

(** [/login]. *)
Definition login_user (db : Database) (now : Z) (user : UserCreate)
    : outcome Token :=
  match authenticate_user db (uc_email user) (uc_password user) with
  | None => Raised (HTTPException 401 "Incorrect email or password")
  | Some db_user =>
      Returned (mkToken
                  (create_access_token now (uc_email user)
                     (Some (ACCESS_TOKEN_EXPIRE_MINUTES * 60)%Z))
                  "bearer" (User.id db_user))
  end.

Definition credentials_exception : exn :=
  HTTPException 401
    "Could not validate credentials. Please provide a valid Bearer token.".

(** [get_current_user]. *)
Definition get_current_user (db : Database) (now : Z) (token : string)
    : outcome User.t :=
  match jwt_decode now token with
  | None => Raised credentials_exception
  | Some payload =>
      match sub payload with
      | None => Raised credentials_exception
      | Some email =>
          match get_user_by_email db email with
          | None => Raised credentials_exception
          | Some user => Returned user
          end
      end
  end.

(** [/backtest]: the body of [/backtest/test], then the run is saved for
    the current user and its id goes into the answer. *)
Definition backtest_strategy (db : Database) (now : Z) (execution_time : Q)
    (request : BacktestRequest) (current_user : User.t)
    : Database * outcome (BacktestResponse.t * Z) :=
  match handler_body np_sqrt strptime yf_history request with
  | Returned results =>
      let backtest_data := mkBacktestData request results (Some execution_time) in
      let '(db', saved_backtest) :=
        save_backtest_run db now backtest_data (Some (User.id current_user)) in
      (db', Returned (results, BacktestRun.id saved_backtest))
  | Raised (ValueError msg) => (db, Raised (HTTPException 400 msg))
  | Raised e =>
      (db, Raised (HTTPException 500
                     (String.append "Internal server error: " (str e))))
  end.

End Accounts.




(** [/analytics/popular-tickers]. *)
Definition popular_tickers_route (db : Database) : outcome (list (string * nat)) :=
  get_popular_tickers db 10.

Record PaymentRequest : Type := mkPaymentRequest {
  amount : Z;
  currency : string
}.

Record PaymentIntent : Type := mkPaymentIntent {
  client_secret : string;
  payment_intent_id : string;
  pi_amount : Z;
  pi_currency : string;
  pi_status : string
}.

(** An int in an f-string. *)
Definition format_int (z : Z) : string := NilZero.string_of_int (Z.to_int z).

(** [current_user.is_premium = True; db.commit()] on the row of that user. *)
Definition set_premium (user_id : Z) (db : Database) : Database :=
  mkDatabase
    (map (fun u =>
            if (User.id u =? user_id)%Z
            then User.mk (User.id u) (User.email u) (User.hashed_password u)
                   (User.is_active u) true (User.created_at u)
            else u)
         (users db))
    (backtest_runs db) (users_id_seq db) (backtest_runs_id_seq db).

(** [/payment/create-intent]. *)
Definition create_payment_intent (db : Database) (payment : PaymentRequest)
    (current_user : User.t) : Database * PaymentIntent :=
  (set_premium (User.id current_user) db,
   mkPaymentIntent
     (String.append "pi_mock_"
        (String.append (format_int (amount payment))
           (String.append "_" (format_int (User.id current_user)))))
     (String.append "pi_mock_" (format_int (amount payment)))
     (amount payment)
     (currency payment)
     "requires_payment_method").

(** The rows of a database that only this code has written to: ids are
    those the sequences have given out, and no email occurs twice. *)
Definition well_formed (db : Database) : Prop :=
  NoDup (map User.email (users db)) /\
  NoDup (map User.id (users db)) /\
  Forall (fun u => (User.id u <= users_id_seq db)%Z) (users db) /\
  NoDup (map BacktestRun.id (backtest_runs db)) /\
  Forall (fun r => (BacktestRun.id r <= backtest_runs_id_seq db)%Z) (backtest_runs db).

Definition empty_database : Database := mkDatabase [] [] 0 0.

(** Stand-ins for passlib and python-jose in the samples: the hash keeps
    salt and password apart by a colon, and the only token there is belongs
    to one fixed payload. *)
Definition ex_hash (salt password : string) : string :=
  String.append salt (String.append ":" password).

Definition ex_verify (password hashed : string) : bool :=
  String.eqb hashed (String.append "s1:" password).

Definition ex_payload : Payload := mkPayload (Some "ann@example.com"%string) 1800.

Definition ex_jwt_encode (p : Payload) : string := "token-ann".

Definition ex_jwt_decode (now : Z) (token : string) : option Payload :=
  if String.eqb token "token-ann" && (now <=? exp ex_payload)%Z
  then Some ex_payload else None.

Definition ex_ann : UserCreate := mkUserCreate "ann@example.com" "secret".

(** The database after Ann has registered at time 0 with the salt "s1". *)
Definition ex_database : Database :=
  fst (register_user ex_hash ex_jwt_encode empty_database 0 "s1" ex_ann).

Definition ex_ann_row : User.t :=
  User.mk 1 "ann@example.com" "s1:secret" true false 0.

Definition ex_request : BacktestRequest :=
  mkRequest "AAPL" "2022-01-01" "2022-12-31" 2 ex_rule.

(** The row of a user after [is_premium] was set. *)
Definition premium (u : User.t) : User.t :=
  User.mk (User.id u) (User.email u) (User.hashed_password u)
    (User.is_active u) true (User.created_at u).

(** The database after Ann has run the sample request at time 100. *)
Definition ex_database_with_run : Database :=
  fst (backtest_strategy Numpy.sqrt15 ex_strptime ex_history ex_database 100
         (3 # 2) ex_request ex_ann_row).

(** ** Readings of the specification used in the statements *)



(** The simple returns r_i = (v_i - v_(i-1)) / v_(i-1) of a list of values. *)
Fixpoint simple_returns (v : list Q) : list Q :=
  match v with
  | a :: rest =>
      match rest with
      | b :: _ => (b - a) / a :: simple_returns rest
      | [] => []
      end
  | [] => []
  end.

(** The mean of a list of numbers, and the mean of the squared deviations
    from it. *)
Definition arithmetic_mean (l : list Q) : Q :=
  fsum l / inject_Z (Z.of_nat (List.length l)).

Definition population_variance (l : list Q) : Q :=
  fsum (map (fun x => (x - arithmetic_mean l) * (x - arithmetic_mean l)) l)
  / inject_Z (Z.of_nat (List.length l)).


(** An equity curve with the values 100, 110, 132. *)
Definition ex_rising_curve : list EquityPoint :=
  [mkEquityPoint 1 100 10 (Fin 10); mkEquityPoint 2 110 11 (Fin 10);
   mkEquityPoint 3 132 12 (Fin 11)].

(** The database after two runs on MSFT and one on AAPL were saved. *)
Definition ex_database_three_runs : Database :=
  let data := fun t : string =>
    mkBacktestData (mkRequest t "2022-01-01" "2022-12-31" 2 ex_rule)
      ex_response None in
  let db1 := fst (save_backtest_run ex_database 100 (data "MSFT"%string) (Some 1%Z)) in
  let db2 := fst (save_backtest_run db1 200 (data "AAPL"%string) (Some 1%Z)) in
  fst (save_backtest_run db2 300 (data "MSFT"%string) None).

(** * Properties *)

(** ** Comparisons and strings *)

Lemma Qlt_bool_iff (a b : Q) : Qlt_bool a b = true <-> a < b.
Proof.
  unfold Qlt_bool. rewrite negb_true_iff.
  split; intro H.
  - apply Qnot_le_lt. intro Hle. apply Qle_bool_iff in Hle. congruence.
  - destruct (Qle_bool b a) eqn:E; [|reflexivity].
    apply Qle_bool_iff in E. exfalso. exact (Qlt_not_le _ _ H E).
Qed.



















(** ** One call of [next] *)

Lemma next_strategy (rule : Rule) (env : Lines) (self : SMAStrategy) (b : BackBroker) :
  fst (next rule env self b) =
  mkStrategy (trades self)
    (equity_curve self ++
     [mkEquityPoint (data_date0 env) (getvalue b) (data_close0 env) (sma0 env)]).
Proof.
  unfold next.
  destruct (String.eqb _ "buy" && negb (Position_bool (position b))); [reflexivity|].
  destruct (String.eqb _ "sell" && Position_bool (position b)); reflexivity.
Qed.

Lemma next_broker (rule : Rule) (env : Lines) (self : SMAStrategy) (b : BackBroker) :
  snd (next rule env self b) =
  if String.eqb (chosen_action rule env) "buy" && negb (Position_bool (position b))
  then buy env b
  else if String.eqb (chosen_action rule env) "sell" && Position_bool (position b)
  then sell env b
  else b.
Proof.
  unfold next, chosen_action.
  destruct (String.eqb _ "buy" && negb (Position_bool (position b))); [reflexivity|].
  destruct (String.eqb _ "sell" && Position_bool (position b)); reflexivity.
Qed.

(** An order request leaves cash, position and value as they are. *)
Lemma submit_keeps (b : BackBroker) (o : Order) :
  cash (submit b o) = cash b /\ position (submit b o) = position b /\
  value (submit b o) = value b /\ commission (submit b o) = commission b.
Proof. unfold submit; simpl; auto. Qed.

Lemma next_keeps (rule : Rule) (env : Lines) (self : SMAStrategy) (b : BackBroker) :
  let b' := snd (next rule env self b) in
  cash b' = cash b /\ position b' = position b /\ value b' = value b /\
  commission b' = commission b.
Proof.
  cbv zeta. rewrite next_broker.
  destruct (String.eqb _ "buy" && _).
  - change (buy env b) with (submit b (mkOrder 1 (data_close0 env))).
    apply submit_keeps.
  - destruct (String.eqb _ "sell" && _).
    + change (sell env b) with (submit b (mkOrder (-1) (data_close0 env))).
      apply submit_keeps.
    + auto.
Qed.

(** C10: the chosen action reaches the broker only through the exact
    strings "buy" and "sell"; any other text, whatever its letter case,
    leaves the broker as it was. *)
Theorem next_dispatch_case_sensitive :
  forall (rule : Rule) (env : Lines) (self : SMAStrategy) (b : BackBroker),
    let action := chosen_action rule env in
    let b' := snd (next rule env self b) in
    (action = "buy"%string -> Position_bool (position b) = false ->
       b' = buy env b) /\
    (action = "sell"%string -> Position_bool (position b) = true ->
       b' = sell env b) /\
    (action <> "buy"%string -> action <> "sell"%string -> b' = b) /\
    (b' <> b ->
       (action = "buy"%string /\ b' = buy env b) \/
       (action = "sell"%string /\ b' = sell env b)) /\
    (In action ["hold"; "Buy"; "BUY"; "Sell"; "SELL"; " buy"; ""]%string ->
       b' = b).
Proof.
  intros rule env self b action b'.
  assert (Hb' : b' =
    if String.eqb action "buy" && negb (Position_bool (position b))
    then buy env b
    else if String.eqb action "sell" && Position_bool (position b)
    then sell env b else b) by apply next_broker.
  assert (Hother : action <> "buy"%string -> action <> "sell"%string -> b' = b).
  { intros Hb Hs. rewrite Hb'.
    apply String.eqb_neq in Hb. apply String.eqb_neq in Hs.
    now rewrite Hb, Hs. }
  repeat split.
  - intros Ha Hp. rewrite Hb', Ha, Hp. reflexivity.
  - intros Ha Hp. rewrite Hb', Ha, Hp. reflexivity.
  - exact Hother.
  - intro Hne. rewrite Hb' in *.
    destruct (String.eqb action "buy") eqn:Eb; simpl in *.
    + apply String.eqb_eq in Eb.
      destruct (Position_bool (position b)); simpl in *.
      * rewrite Eb in Hne. simpl in Hne. congruence.
      * left. auto.
    + destruct (String.eqb action "sell") eqn:Es; simpl in *.
      * apply String.eqb_eq in Es.
        destruct (Position_bool (position b)); simpl in *.
        -- right. auto.
        -- congruence.
      * congruence.
  - intro Hin. apply Hother; intro Heq; rewrite Heq in Hin; simpl in Hin;
      repeat destruct Hin as [Hin | Hin]; try discriminate; exact Hin.
Qed.

(** With "Buy" for then_action no order is created. *)
Lemma next_dispatch_case_sensitive_witness :
  snd (next (mkRule "price > sma" "Buy" "hold") (mkLines 11 2 (Fin 10))
         SMAStrategy_init (broker_init 10000 (1 # 1000)))
  = broker_init 10000 (1 # 1000).
Proof.
  apply (proj1 (proj2 (proj2
           (next_dispatch_case_sensitive
              (mkRule "price > sma" "Buy" "hold") (mkLines 11 2 (Fin 10))
              SMAStrategy_init (broker_init 10000 (1 # 1000))))));
    vm_compute; discriminate.
Defined.

(** Opens [bar_step] on the results of the broker and of the
    notifications. *)
Ltac open_bar_step st bar :=
  unfold Cerebro.bar_step;
  destruct (BackBroker_next (Cerebro.broker st) bar) as [b1 exs];
  cbn [fst snd];
  destruct (addnotifications (Cerebro.running_trade st) exs) as [t1 pend];
  cbn [fst snd].

Lemma notify_keeps_curve (pend : list Trade) (s : SMAStrategy) :
  equity_curve (Cerebro._notify pend s) = equity_curve s.
Proof.
  unfold Cerebro._notify. revert s.
  induction pend as [| t pend IH]; intro s; simpl.
  - reflexivity.
  - rewrite IH. unfold notify_trade. destruct (isclosed t); reflexivity.
Qed.

(** C9: the point appended by [next] holds the value of the broker as
    [next] found it; it is the same whatever the rule decides, and the
    order that follows changes neither cash, position nor value.  In the
    run, that value is the one the broker computed for this bar before the
    strategy was called. *)
Theorem equity_snapshot_precedes_action :
  forall (rule : Rule) (env : Lines) (self : SMAStrategy) (b : BackBroker),
    let self' := fst (next rule env self b) in
    let b' := snd (next rule env self b) in
    equity_curve self' =
      equity_curve self ++
      [mkEquityPoint (data_date0 env) (getvalue b) (data_close0 env) (sma0 env)] /\
    (forall rule2, equity_curve (fst (next rule2 env self b)) = equity_curve self') /\
    getvalue b' = getvalue b /\
    (forall mp line i bar st,
       (mp <= Z.of_nat (S i))%Z ->
       equity_curve (Cerebro.strategy (Cerebro.bar_step rule mp line i bar st)) =
         equity_curve (Cerebro.strategy st) ++
         [mkEquityPoint (bar_date bar)
            (getvalue (fst (BackBroker_next (Cerebro.broker st) bar)))
            (bar_close bar) (nth i line NaN)]).
Proof.
  intros rule env self b self' b'.
  assert (Hc : forall r, equity_curve (fst (next r env self b)) =
      equity_curve self ++
      [mkEquityPoint (data_date0 env) (getvalue b) (data_close0 env) (sma0 env)]).
  { intro r. now rewrite next_strategy. }
  repeat split.
  - apply Hc.
  - intro rule2. unfold self'. now rewrite !Hc.
  - unfold getvalue. apply (next_keeps rule env self b).
  - intros mp line i bar st Hmp.
    open_bar_step st bar.
    apply Z.leb_le in Hmp. rewrite Hmp.
    match goal with |- context [next ?r ?e ?s ?bb] =>
      pose proof (next_strategy r e s bb) as Hn;
      destruct (next r e s bb) as [s2 b2] end.
    simpl in *. subst s2. simpl. now rewrite notify_keeps_curve.
Qed.

Lemma equity_snapshot_precedes_action_witness :
  equity_curve
    (Cerebro.strategy
       (Cerebro.bar_step (mkRule "price > sma" "buy" "hold") 1 [Fin 10] 0
          (mkBar 1 10 11) (Cerebro.start 10000 (1 # 1000))))
  = [mkEquityPoint 1
       (getvalue (fst (BackBroker_next (broker_init 10000 (1 # 1000)) (mkBar 1 10 11))))
       11 (Fin 10)].
Proof.
  apply (proj2 (proj2 (proj2
           (equity_snapshot_precedes_action
              (mkRule "price > sma" "buy" "hold") (mkLines 11 1 (Fin 10))
              SMAStrategy_init (broker_init 10000 (1 # 1000)))))
         1%Z [Fin 10] 0%nat
         (mkBar 1 10 11) (Cerebro.start 10000 (1 # 1000))).
  vm_compute. discriminate.
Defined.

(** ** The broker on the orders of the strategy *)

Lemma Qle_bool_true (a b : Q) : a <= b -> Qle_bool a b = true.
Proof. apply Qle_bool_iff. Qed.

Lemma Qle_bool_false (a b : Q) : b < a -> Qle_bool a b = false.
Proof.
  intro H. destruct (Qle_bool a b) eqn:E; [|reflexivity].
  apply Qle_bool_iff in E. lra.
Qed.

Lemma Qlt_bool_true (a b : Q) : a < b -> Qlt_bool a b = true.
Proof. apply Qlt_bool_iff. Qed.

Lemma Qlt_bool_false (a b : Q) : b <= a -> Qlt_bool a b = false.
Proof. intro H. unfold Qlt_bool. now rewrite Qle_bool_true. Qed.

Lemma cash_after_buy_eq (c k p : Q) : cash_after_buy c k p == c - (p + k * p).
Proof.
  unfold cash_after_buy, getvaluesize, getcommission. simpl Z.abs.
  change (inject_Z 1) with 1. ring.
Qed.

Lemma cash_after_sell_eq (c k pp p : Q) : cash_after_sell c k pp p == c + p - k * p.
Proof.
  unfold cash_after_sell, getvaluesize, getcommission, profitandloss.
  simpl Z.abs. change (inject_Z 1) with 1. ring.
Qed.

Lemma execute_buy_flat (c k pp v : Q) (sub : list Order) (pc : Q) (dt : Z) (po : Q) :
  _execute (mkBroker c k (mkPosition 0 pp) sub v) (mkOrder 1 pc) dt po =
  if Qlt_bool (cash_after_buy c k po) 0
  then (mkBroker c k (mkPosition 0 pp) sub v, None)
  else (mkBroker (cash_after_buy c k po) k (mkPosition 1 po) sub v,
        Some (mkExecBit dt po 0 0 1 (getcommission k 1 po)
                (profitandloss (- 0) pp po))).
Proof.
  unfold _execute, cash_after_buy. simpl.
  destruct (Qlt_bool _ 0); reflexivity.
Qed.

Lemma execute_sell_long (c k pp v : Q) (sub : list Order) (pc : Q) (dt : Z) (po : Q) :
  _execute (mkBroker c k (mkPosition 1 pp) sub v) (mkOrder (-1) pc) dt po =
  (mkBroker (cash_after_sell c k pp po) k (mkPosition 0 0) sub v,
   Some (mkExecBit dt po (-1) (getcommission k (-1) po) 0 0
           (profitandloss 1 pp po))).
Proof. reflexivity. Qed.

(** No pending order: the broker only marks the portfolio to the close. *)
Lemma broker_next_idle (b : BackBroker) (bar : Bar) :
  submitted b = [] ->
  BackBroker_next b bar =
  (mkBroker (cash b) (commission b) (position b) []
     (cash b + getvaluesize (pos_size (position b)) (bar_close bar)), []).
Proof.
  intro H. unfold BackBroker_next. rewrite H. reflexivity.
Qed.

(** A pending buy on a flat position: filled at the open when the cash
    covers it at the price of creation and at the open, dropped otherwise. *)
Lemma broker_next_buy (c k pp v pc : Q) (bar : Bar) :
  BackBroker_next (mkBroker c k (mkPosition 0 pp) [mkOrder 1 pc] v) bar =
  if Qle_bool 0 (cash_after_buy c k pc) &&
     negb (Qlt_bool (cash_after_buy c k (bar_open bar)) 0)
  then (mkBroker (cash_after_buy c k (bar_open bar)) k
          (mkPosition 1 (bar_open bar)) []
          (cash_after_buy c k (bar_open bar) + getvaluesize 1 (bar_close bar)),
        [mkExecBit (bar_date bar) (bar_open bar) 0 0 1
           (getcommission k 1 (bar_open bar))
           (profitandloss (- 0) pp (bar_open bar))])
  else (mkBroker c k (mkPosition 0 pp) []
          (c + getvaluesize 0 (bar_close bar)), []).
Proof.
  unfold BackBroker_next. simpl submitted. simpl cash. simpl commission.
  simpl position.
  change (check_submitted k c (mkPosition 0 pp) [mkOrder 1 pc])
    with (if Qle_bool 0 (cash_after_buy c k pc) then [mkOrder 1 pc] else []).
  destruct (Qle_bool 0 (cash_after_buy c k pc)); simpl andb.
  - unfold execute_all. rewrite execute_buy_flat.
    destruct (Qlt_bool (cash_after_buy c k (bar_open bar)) 0); reflexivity.
  - reflexivity.
Qed.

(** A pending sell on a position of one unit. *)
Lemma broker_next_sell (c k pp v pc : Q) (bar : Bar) :
  BackBroker_next (mkBroker c k (mkPosition 1 pp) [mkOrder (-1) pc] v) bar =
  if Qle_bool 0 (c + getvaluesize 1 pc - getcommission k (-1) pc)
  then (mkBroker (cash_after_sell c k pp (bar_open bar)) k (mkPosition 0 0) []
          (cash_after_sell c k pp (bar_open bar) + getvaluesize 0 (bar_close bar)),
        [mkExecBit (bar_date bar) (bar_open bar) (-1)
           (getcommission k (-1) (bar_open bar)) 0 0
           (profitandloss 1 pp (bar_open bar))])
  else (mkBroker c k (mkPosition 1 pp) []
          (c + getvaluesize 1 (bar_close bar)), []).
Proof.
  unfold BackBroker_next. simpl submitted. simpl cash. simpl commission.
  simpl position.
  change (check_submitted k c (mkPosition 1 pp) [mkOrder (-1) pc])
    with (if Qle_bool 0 (c + getvaluesize 1 pc - getcommission k (-1) pc)
          then [mkOrder (-1) pc] else []).
  destruct (Qle_bool 0 _).
  - unfold execute_all. rewrite execute_sell_long. reflexivity.
  - reflexivity.
Qed.

(** C1 (as the code has it): [buy()] only queues a market order for the
    sizer's stake of one unit; cash and position are untouched on the bar
    of the signal.  At the next bar the order leaves the queue.  It is
    filled at the open when the cash covers one unit plus commission, at
    the close of the signal bar and at that open: the position is then one
    unit, and the cash goes down by the price and the commission, so that
    it is 0 only when the cash was exactly that cost.  Otherwise the order
    is rejected, and cash and position stay as they were. *)
Theorem buy_fills_one_unit_at_next_open :
  forall (env : Lines) (b : BackBroker) (bar : Bar),
    pos_size (position b) = 0%Z ->
    submitted b = [] ->
    let b1 := buy env b in
    let check := data_close0 env + commission b * data_close0 env in
    let cost := bar_open bar + commission b * bar_open bar in
    let b2 := fst (BackBroker_next b1 bar) in
    (cash b1 = cash b /\ position b1 = position b /\
     submitted b1 = [mkOrder stake (data_close0 env)]) /\
    (check <= cash b -> cost <= cash b ->
       pos_size (position b2) = stake /\
       pos_price (position b2) = bar_open bar /\
       cash b2 == cash b - cost /\
       value b2 == cash b - cost + bar_close bar /\
       submitted b2 = [] /\
       (cash b2 == 0 <-> cash b == cost)) /\
    (cash b < check \/ cash b < cost ->
       position b2 = position b /\ cash b2 = cash b /\ submitted b2 = []).
Proof.
  intros env b bar Hflat Hsub b1 check cost b2.
  destruct b as [c k [sz pp] sub v]. simpl in Hflat, Hsub. subst sz sub.
  split; [repeat split; reflexivity|].
  subst b2 b1.
  change (buy env (mkBroker c k (mkPosition 0 pp) [] v))
    with (mkBroker c k (mkPosition 0 pp) [mkOrder 1 (data_close0 env)] v).
  rewrite broker_next_buy.
  pose proof (cash_after_buy_eq c k (data_close0 env)) as E1.
  pose proof (cash_after_buy_eq c k (bar_open bar)) as E2.
  unfold check, cost. simpl commission. simpl cash. simpl position.
  split.
  - intros H1 H2.
    rewrite Qle_bool_true, Qlt_bool_false by lra.
    simpl.
    split; [reflexivity|]. split; [reflexivity|]. split; [exact E2|].
    split; [rewrite E2; unfold getvaluesize; change (inject_Z 1) with 1; ring|].
    split; [reflexivity|].
    rewrite E2. split; intro H; lra.
  - intros [H | H].
    + rewrite Qle_bool_false by lra. repeat split; reflexivity.
    + rewrite (Qlt_bool_true (cash_after_buy c k (bar_open bar))) by lra.
      rewrite andb_false_r. repeat split; reflexivity.
Qed.

(** On the sample the fill leaves 9987.988; with an open of 10000000/1001
    the cost is the whole of the cash and nothing is left. *)
Lemma buy_fills_one_unit_at_next_open_witness :
  (pos_size (position ex_filled) = stake /\
   pos_price (position ex_filled) = 12 /\
   cash ex_filled == 10000 - (12 + (1 # 1000) * 12) /\
   value ex_filled == 10000 - (12 + (1 # 1000) * 12) + 12 /\
   submitted ex_filled = [] /\
   (cash ex_filled == 0 <-> 10000 == 12 + (1 # 1000) * 12)) /\
  cash (fst (BackBroker_next (buy ex_signal ex_flat_broker)
               (mkBar 3 (10000000 # 1001) 12))) == 0.
Proof.
  split.
  - apply (proj1 (proj2
             (buy_fills_one_unit_at_next_open ex_signal ex_flat_broker
                (mkBar 3 12 12) eq_refl eq_refl)));
      vm_compute; discriminate.
  - apply (proj2 (proj2 (proj2 (proj2 (proj2
             (proj1 (proj2
                (buy_fills_one_unit_at_next_open ex_signal ex_flat_broker
                   (mkBar 3 (10000000 # 1001) 12) eq_refl eq_refl))
                ltac:(vm_compute; discriminate)
                ltac:(vm_compute; discriminate))))))).
    vm_compute. reflexivity.
Defined.

(** C1 fails as stated: after the buy of the second bar of [ex_bars3] the
    cash is still 10000; after the fill on the third bar the position is
    one unit, not 10000 x 0.999 / price for the close (11) or the open
    (12), and 9987.988 of cash remain. *)
Lemma buy_all_in_counterexample :
  Position_bool (position ex_flat_broker) = false /\
  snd (next ex_rule ex_signal SMAStrategy_init ex_flat_broker)
    = buy ex_signal ex_flat_broker /\
  cash (buy ex_signal ex_flat_broker) == 10000 /\
  pos_size (position (buy ex_signal ex_flat_broker)) = 0%Z /\
  pos_size (position ex_filled) = 1%Z /\
  cash ex_filled == 9987988 # 1000 /\
  ~ cash ex_filled == 0 /\
  ~ inject_Z (pos_size (position ex_filled)) == 10000 * (1 - (1 # 1000)) / 11 /\
  ~ inject_Z (pos_size (position ex_filled)) == 10000 * (1 - (1 # 1000)) / 12 /\
  exists st,
    Cerebro.run 2 ex_rule initial_cash (1 # 1000) ex_bars3 = Returned st /\
    pos_size (position (Cerebro.broker st)) = 1%Z /\
    cash (Cerebro.broker st) == 9987988 # 1000.
Proof.
  repeat split; try (vm_compute; congruence).
  eexists. split; [vm_compute; reflexivity|].
  split; vm_compute; reflexivity.
Qed.

(** ** The position over a run *)

(** What one [next] of the broker can do to a position that the pending
    order matches: nothing, open one unit from flat, or close the unit. *)
Lemma broker_next_cases (b : BackBroker) (bar : Bar) :
  order_matches_position b ->
  submitted (fst (BackBroker_next b bar)) = [] /\
  ((position (fst (BackBroker_next b bar)) = position b /\
    snd (BackBroker_next b bar) = []) \/
   (pos_size (position b) = 0%Z /\
    pos_size (position (fst (BackBroker_next b bar))) = 1%Z /\
    exists ex, snd (BackBroker_next b bar) = [ex] /\
               ex_opened ex = 1%Z /\ ex_closed ex = 0%Z) \/
   (pos_size (position b) = 1%Z /\
    pos_size (position (fst (BackBroker_next b bar))) = 0%Z /\
    exists ex, snd (BackBroker_next b bar) = [ex] /\
               ex_opened ex = 0%Z /\ ex_closed ex = (-1)%Z)).
Proof.
  intros [Hsize Hsub].
  destruct b as [c k [sz pp] sub v]. simpl in Hsize, Hsub.
  destruct Hsub as [Hs | [[Hz [pc Hs]] | [Hz [pc Hs]]]]; subst sub.
  - rewrite broker_next_idle by reflexivity. simpl. auto.
  - subst sz. rewrite broker_next_buy.
    destruct (Qle_bool 0 _ && negb _); simpl.
    + split; [reflexivity|]. right. left. repeat split. eexists. repeat split.
    + auto.
  - subst sz. rewrite broker_next_sell.
    destruct (Qle_bool 0 _); simpl.
    + split; [reflexivity|]. right. right. repeat split. eexists. repeat split.
    + auto.
Qed.

Lemma broker_next_inv (b : BackBroker) (bar : Bar) :
  order_matches_position b ->
  (pos_size (position (fst (BackBroker_next b bar))) = 0%Z \/
   pos_size (position (fst (BackBroker_next b bar))) = 1%Z) /\
  submitted (fst (BackBroker_next b bar)) = [].
Proof.
  intro H. pose proof H as [Hsize _].
  destruct (broker_next_cases b bar H) as [Hs [[Hp _] | [[_ [H1 _]] | [_ [H0 _]]]]];
    split; auto.
  now rewrite Hp.
Qed.

Lemma next_inv (rule : Rule) (env : Lines) (self : SMAStrategy) (b : BackBroker) :
  (pos_size (position b) = 0%Z \/ pos_size (position b) = 1%Z) ->
  submitted b = [] ->
  order_matches_position (snd (next rule env self b)).
Proof.
  intros Hsize Hsub. rewrite next_broker.
  destruct b as [c k [sz pp] sub v]. simpl in Hsize, Hsub. subst sub.
  unfold Position_bool. simpl position. simpl pos_size.
  destruct Hsize as [Hz | Hz]; subst sz; simpl negb;
    rewrite ?andb_true_r, ?andb_false_r.
  - destruct (String.eqb _ "buy").
    + split; simpl; [auto|]. right. left. split; [reflexivity|].
      eexists. reflexivity.
    + split; simpl; auto.
  - destruct (String.eqb (chosen_action rule env) "sell").
    + split; simpl; [auto|]. right. right. split; [reflexivity|].
      eexists. reflexivity.
    + split; simpl; auto.
Qed.

Lemma bar_step_broker (rule : Rule) (mp : Z) (line : list pyfloat) (i : nat)
    (bar : Bar) (st : Cerebro.RunState) :
  Cerebro.broker (Cerebro.bar_step rule mp line i bar st) =
  if (mp <=? Z.of_nat (S i))%Z
  then snd (next rule (mkLines (bar_close bar) (bar_date bar) (nth i line NaN))
              (Cerebro._notify
                 (snd (addnotifications (Cerebro.running_trade st)
                         (snd (BackBroker_next (Cerebro.broker st) bar))))
                 (Cerebro.strategy st))
              (fst (BackBroker_next (Cerebro.broker st) bar)))
  else fst (BackBroker_next (Cerebro.broker st) bar).
Proof.
  open_bar_step st bar.
  destruct (mp <=? Z.of_nat (S i))%Z; [|reflexivity].
  destruct (next _ _ _ b1); reflexivity.
Qed.

Lemma bar_step_inv (rule : Rule) (mp : Z) (line : list pyfloat) (i : nat)
    (bar : Bar) (st : Cerebro.RunState) :
  order_matches_position (Cerebro.broker st) ->
  order_matches_position (Cerebro.broker (Cerebro.bar_step rule mp line i bar st)).
Proof.
  intro H. rewrite bar_step_broker.
  destruct (broker_next_inv _ bar H) as [Hsize Hsub].
  destruct (mp <=? Z.of_nat (S i))%Z.
  - now apply next_inv.
  - split; auto.
Qed.

Lemma runonce_inv (rule : Rule) (mp : Z) (line : list pyfloat) (bars : list Bar) :
  forall (i : nat) (st : Cerebro.RunState),
    order_matches_position (Cerebro.broker st) ->
    order_matches_position (Cerebro.broker (Cerebro._runonce rule mp line i bars st)).
Proof.
  induction bars as [| bar bars IH]; intros i st H; simpl.
  - exact H.
  - apply IH. now apply bar_step_inv.
Qed.

Lemma runonce_app (rule : Rule) (mp : Z) (line : list pyfloat) (pre post : list Bar) :
  forall (i : nat) (st : Cerebro.RunState),
    Cerebro._runonce rule mp line i (pre ++ post) st =
    Cerebro._runonce rule mp line (i + List.length pre) post
      (Cerebro._runonce rule mp line i pre st).
Proof.
  induction pre as [| bar pre IH]; intros i st; simpl.
  - now rewrite Nat.add_0_r.
  - rewrite IH. now rewrite Nat.add_succ_r.
Qed.

Lemma start_inv (cash0 comm : Q) :
  order_matches_position (Cerebro.broker (Cerebro.start cash0 comm)).
Proof. split; simpl; auto. Qed.

(** C4: after any number of bars of a run the position is flat or one
    unit, and the order that is waiting is a buy on a flat position or a
    sell on the open one; on the following bar the broker opens a position
    only from flat and closes only an open one.  In [next], a buy request
    while holding and a sell request while flat leave the broker as it
    was. *)
Theorem at_most_one_open_position :
  forall (rule : Rule) (mp : Z) (line : list pyfloat) (cash0 comm : Q)
         (pre post : list Bar),
    let st := Cerebro._runonce rule mp line 0 pre (Cerebro.start cash0 comm) in
    let b := Cerebro.broker st in
    Cerebro._runonce rule mp line 0 (pre ++ post) (Cerebro.start cash0 comm) =
      Cerebro._runonce rule mp line (List.length pre) post st /\
    (pos_size (position b) = 0%Z \/ pos_size (position b) = 1%Z) /\
    order_matches_position b /\
    (forall bar ex,
       In ex (snd (BackBroker_next b bar)) ->
       (ex_opened ex = 1%Z /\ ex_closed ex = 0%Z /\
        pos_size (position b) = 0%Z /\
        pos_size (position (fst (BackBroker_next b bar))) = 1%Z) \/
       (ex_opened ex = 0%Z /\ ex_closed ex = (-1)%Z /\
        pos_size (position b) = 1%Z /\
        pos_size (position (fst (BackBroker_next b bar))) = 0%Z)) /\
    (forall env self (b0 : BackBroker),
       (chosen_action rule env = "buy"%string ->
        Position_bool (position b0) = true ->
        snd (next rule env self b0) = b0) /\
       (chosen_action rule env = "sell"%string ->
        Position_bool (position b0) = false ->
        snd (next rule env self b0) = b0) /\
       (snd (next rule env self b0) = buy env b0 -> snd (next rule env self b0) <> b0 ->
        Position_bool (position b0) = false) /\
       (snd (next rule env self b0) = sell env b0 -> snd (next rule env self b0) <> b0 ->
        Position_bool (position b0) = true)).
Proof.
  intros rule mp line cash0 comm pre post st b.
  assert (Hinv : order_matches_position b).
  { apply runonce_inv, start_inv. }
  split; [apply (runonce_app rule mp line pre post 0)|].
  split; [apply Hinv|]. split; [exact Hinv|]. split.
  - intros bar ex Hin.
    destruct (broker_next_cases b bar Hinv)
      as [_ [[_ Hn] | [[Hz [H1 [ex' [He [Ho Hc]]]]] | [Hz [H1 [ex' [He [Ho Hc]]]]]]]];
      rewrite ?Hn, ?He in Hin; simpl in Hin.
    + contradiction.
    + destruct Hin as [<- | []]. left. auto.
    + destruct Hin as [<- | []]. right. auto.
  - intros env self b0. rewrite next_broker.
    repeat split.
    + intros Ha Hp. rewrite Ha, Hp. reflexivity.
    + intros Ha Hp. rewrite Ha, Hp. reflexivity.
    + intros Hb Hne. destruct (Position_bool (position b0)); [|reflexivity].
      exfalso. simpl negb in *. rewrite andb_false_r, andb_true_r in *.
      destruct (String.eqb (chosen_action rule env) "sell").
      * unfold buy, sell, submit in Hb. simpl in Hb. inversion Hb as [Hq].
        apply app_inv_head in Hq. discriminate.
      * apply Hne. reflexivity.
    + intros Hb Hne. destruct (Position_bool (position b0)); [reflexivity|].
      exfalso. simpl negb in *. rewrite andb_false_r, andb_true_r in *.
      destruct (String.eqb (chosen_action rule env) "buy").
      * unfold buy, sell, submit in Hb. simpl in Hb. inversion Hb as [Hq].
        apply app_inv_head in Hq. discriminate.
      * apply Hne. reflexivity.
Qed.

(** A buy request on the holding broker of the sample changes nothing. *)
Lemma at_most_one_open_position_witness :
  snd (next ex_rule (mkLines 13 4 (Fin 12)) SMAStrategy_init ex_filled) = ex_filled.
Proof.
  apply (proj1 (proj2 (proj2 (proj2 (proj2
           (at_most_one_open_position ex_rule 2 [] 10000 (1 # 1000) [] []))))
           (mkLines 13 4 (Fin 12)) SMAStrategy_init ex_filled));
    reflexivity.
Defined.

(** ** The moving average and the calls of [next] *)

Lemma set_nth_length {A} (l : list A) (i : nat) (v : A) :
  List.length (set_nth l i v) = List.length l.
Proof.
  revert i. induction l as [| x l IH]; intros [| i]; simpl; auto.
Qed.

Lemma py_setitem_inside {A} (l : list A) (i : Z) (v : A) :
  (0 <= i < Z.of_nat (List.length l))%Z ->
  py_setitem l i v = Some (set_nth l (Z.to_nat i) v).
Proof.
  intros [H0 H1]. unfold py_setitem.
  replace (i <? - Z.of_nat (List.length l))%Z with false
    by (symmetry; apply Z.ltb_ge; lia).
  replace (Z.of_nat (List.length l) <=? i)%Z with false
    by (symmetry; apply Z.leb_gt; lia).
  replace (i <? 0)%Z with false by (symmetry; apply Z.ltb_ge; lia).
  reflexivity.
Qed.

Lemma once_from_returns (src : list Q) (period : Z) (steps : nat) :
  period <> 0%Z ->
  forall (i : Z) (dst : list pyfloat),
    (0 <= i)%Z ->
    (i + Z.of_nat steps <= Z.of_nat (List.length dst))%Z ->
    exists dst',
      once_from src period i steps dst = Returned dst' /\
      List.length dst' = List.length dst.
Proof.
  intro Hp. apply Z.eqb_neq in Hp.
  induction steps as [| k IH]; intros i dst H0 Hlen.
  - exists dst. split; reflexivity.
  - cbn [once_from]. rewrite Hp.
    rewrite py_setitem_inside by lia.
    destruct (IH (i + 1)%Z (set_nth dst (Z.to_nat i)
                (Fin (fsum (py_slice src (i - period + 1) (i + 1)) / inject_Z period))))
      as [dst' [Hr Hl]].
    + lia.
    + rewrite set_nth_length. lia.
    + exists dst'. split; [exact Hr|]. now rewrite Hl, set_nth_length.
Qed.

(** With at least [period] bars the line of the average is computed. *)
Lemma SMA_once_returns (src : list Q) (period : Z) :
  (1 <= period <= Z.of_nat (List.length src))%Z ->
  exists line, SMA_once src period = Returned line /\
               List.length line = List.length src.
Proof.
  intros [H1 Hn]. unfold SMA_once, Average_once.
  destruct (once_from_returns src period (Z.to_nat (period - (period - 1)))
              ltac:(lia) (period - 1)%Z (repeat NaN (List.length src)))
    as [d1 [Hr1 Hl1]].
  - lia.
  - rewrite repeat_length. lia.
  - rewrite Hr1. cbn [bind].
    destruct (once_from_returns src period
                (Z.to_nat (Z.of_nat (List.length src) - period))
                ltac:(lia) period d1) as [d2 [Hr2 Hl2]].
    + lia.
    + rewrite Hl1, repeat_length. lia.
    + exists d2. split; [exact Hr2|].
      now rewrite Hl2, Hl1, repeat_length.
Qed.

Lemma bar_step_curve_length (rule : Rule) (mp : Z) (line : list pyfloat) (i : nat)
    (bar : Bar) (st : Cerebro.RunState) :
  List.length (equity_curve (Cerebro.strategy (Cerebro.bar_step rule mp line i bar st))) =
  (List.length (equity_curve (Cerebro.strategy st)) +
   (if (mp <=? Z.of_nat (S i))%Z then 1 else 0))%nat.
Proof.
  open_bar_step st bar.
  destruct (mp <=? Z.of_nat (S i))%Z.
  - match goal with |- context [next ?r ?e ?s ?bb] =>
      pose proof (next_strategy r e s bb) as Hn;
      destruct (next r e s bb) as [s2 b2] end.
    cbn [fst] in Hn. subst s2. cbn [Cerebro.strategy equity_curve].
    rewrite length_app, notify_keeps_curve. reflexivity.
  - cbn [Cerebro.strategy]. rewrite notify_keeps_curve. lia.
Qed.

(** [next] is called on the bars from the [mp]-th on. *)
Lemma runonce_curve_length (rule : Rule) (mp : Z) (line : list pyfloat)
    (bars : list Bar) :
  (1 <= mp)%Z ->
  forall (i : nat) (st : Cerebro.RunState),
    List.length (equity_curve (Cerebro.strategy (Cerebro._runonce rule mp line i bars st))) =
    (List.length (equity_curve (Cerebro.strategy st)) +
     (List.length bars - (Z.to_nat mp - 1 - i)))%nat.
Proof.
  intro Hmp. induction bars as [| bar bars IH]; intros i st;
    cbn [Cerebro._runonce List.length].
  - lia.
  - rewrite IH, bar_step_curve_length.
    destruct (mp <=? Z.of_nat (S i))%Z eqn:E.
    + apply Z.leb_le in E. lia.
    + apply Z.leb_gt in E. lia.
Qed.

Section CurveLength.
Variable np_sqrt : Q -> Q.

(** C2 (as the code has it): each call of [next] appends one point, and
    backtrader calls [next] only from the bar on which the moving average
    has its first value; with a window [w] between 1 and the number [n] of
    bars the run returns a curve of [n - w + 1] points. *)
Theorem equity_curve_length_from_window :
  forall (data : list Bar) (w : Z) (rule : Rule),
    (1 <= w <= Z.of_nat (List.length data))%Z ->
    (forall self env b,
       List.length (equity_curve (fst (next rule env self b))) =
       S (List.length (equity_curve self))) /\
    exists r,
      run_backtest np_sqrt data w rule = Returned r /\
      Z.of_nat (List.length (BacktestResponse.equity_curve r)) =
      (Z.of_nat (List.length data) - w + 1)%Z.
Proof.
  intros data w rule Hw. split.
  - intros self env b. rewrite next_strategy. simpl.
    rewrite length_app. simpl. lia.
  - destruct (SMA_once_returns (map bar_close data) w) as [line [Hl _]].
    { rewrite length_map. exact Hw. }
    unfold run_backtest, Cerebro.run. rewrite Hl. cbn [bind].
    eexists. split; [reflexivity|].
    cbn [BacktestResponse.equity_curve].
    rewrite runonce_curve_length by (unfold minperiod; lia).
    unfold minperiod. simpl. lia.
Qed.

End CurveLength.

Lemma equity_curve_length_from_window_witness :
  exists r,
    run_backtest Numpy.sqrt15 ex_bars6 2 ex_rule = Returned r /\
    Z.of_nat (List.length (BacktestResponse.equity_curve r)) = (6 - 2 + 1)%Z.
Proof.
  apply (proj2 (equity_curve_length_from_window Numpy.sqrt15 ex_bars6 2 ex_rule
                  ltac:(simpl; lia))).
Defined.

(** C2 fails as stated: six bars and a window of 2 give five points. *)
Lemma equity_curve_length_counterexample :
  exists r,
    run_backtest Numpy.sqrt15 ex_bars6 2 ex_rule = Returned r /\
    List.length (BacktestResponse.equity_curve r) = 5%nat /\
    List.length (BacktestResponse.equity_curve r) <> List.length ex_bars6.
Proof.
  eexists. split; [vm_compute; reflexivity|].
  split; [reflexivity | discriminate].
Qed.

(** ** The ledger of trades *)

Lemma notify_trades (pend : list Trade) (s : SMAStrategy) :
  trades (Cerebro._notify pend s) =
  trades s ++ map record_of (filter isclosed pend).
Proof.
  unfold Cerebro._notify. revert s.
  induction pend as [| t pend IH]; intro s; simpl.
  - now rewrite app_nil_r.
  - rewrite IH. unfold notify_trade.
    destruct (isclosed t); simpl.
    + now rewrite <- app_assoc.
    + reflexivity.
Qed.

Lemma bar_step_fields (rule : Rule) (mp : Z) (line : list pyfloat) (i : nat)
    (bar : Bar) (st : Cerebro.RunState) :
  let exs := snd (BackBroker_next (Cerebro.broker st) bar) in
  let tp := addnotifications (Cerebro.running_trade st) exs in
  let st' := Cerebro.bar_step rule mp line i bar st in
  Cerebro.running_trade st' = fst tp /\
  Cerebro.notified st' = Cerebro.notified st ++ snd tp /\
  trades (Cerebro.strategy st') =
    trades (Cerebro.strategy st) ++ map record_of (filter isclosed (snd tp)) /\
  position (Cerebro.broker st') =
    position (fst (BackBroker_next (Cerebro.broker st) bar)) /\
  cash (Cerebro.broker st') = cash (fst (BackBroker_next (Cerebro.broker st) bar)) /\
  value (Cerebro.broker st') = value (fst (BackBroker_next (Cerebro.broker st) bar)).
Proof.
  cbv zeta. open_bar_step st bar.
  destruct (mp <=? Z.of_nat (S i))%Z.
  - match goal with |- context [next ?r ?e ?s ?bb] =>
      pose proof (next_strategy r e s bb) as Hn;
      pose proof (next_keeps r e s bb) as Hk;
      destruct (next r e s bb) as [s2 b2] end.
    cbn [fst snd] in Hn, Hk. cbv zeta in Hk. destruct Hk as [Hc [Hp [Hv _]]].
    subst s2. cbn. rewrite notify_trades. repeat split; assumption.
  - cbn. rewrite notify_trades. repeat split; reflexivity.
Qed.

Lemma bar_step_ledger (rule : Rule) (mp : Z) (line : list pyfloat) (i : nat)
    (bar : Bar) (st : Cerebro.RunState) :
  ledger_consistent st ->
  ledger_consistent (Cerebro.bar_step rule mp line i bar st).
Proof.
  intros [Hinv [Hsz [Htr Hcnt]]].
  pose proof (bar_step_inv rule mp line i bar st Hinv) as Hinv'.
  destruct (bar_step_fields rule mp line i bar st) as [Hrt [Hnt [Hts [Hpos _]]]].
  unfold ledger_consistent.
  rewrite Hrt, Hnt, Hts, Hpos, Htr, !filter_app, map_app, !length_app.
  split; [exact Hinv'|].
  destruct (broker_next_cases _ bar Hinv)
    as [_ [[Hp Hn] | [[Hz [H1 [ex [He [Ho Hc]]]]] | [Hz [H1 [ex [He [Ho Hc]]]]]]]].
  - rewrite Hn, Hp. simpl. rewrite app_nil_r. repeat split; auto. lia.
  - rewrite He, H1. cbn [addnotifications]. unfold _addnotification.
    rewrite Ho, Hc. cbn [Z.eqb negb andb app].
    assert (Hbase : tr_size (if isclosed (Cerebro.running_trade st)
                             then Trade_new else Cerebro.running_trade st) = 0%Z).
    { destruct (isclosed _); [reflexivity | congruence]. }
    set (base := if isclosed (Cerebro.running_trade st)
                 then Trade_new else Cerebro.running_trade st) in *.
    unfold Trade_update. cbn [Z.eqb]. rewrite Hbase. cbn.
    rewrite app_nil_r. repeat split; auto. lia.
  - rewrite He, H1. cbn [addnotifications]. unfold _addnotification.
    rewrite Ho, Hc. cbn [Z.eqb negb andb app].
    unfold Trade_update. cbn [Z.eqb]. rewrite Hsz, Hz. cbn.
    repeat split; auto. lia.
Qed.

Lemma runonce_ledger (rule : Rule) (mp : Z) (line : list pyfloat) (bars : list Bar) :
  forall (i : nat) (st : Cerebro.RunState),
    ledger_consistent st ->
    ledger_consistent (Cerebro._runonce rule mp line i bars st).
Proof.
  induction bars as [| bar bars IH]; intros i st H; simpl.
  - exact H.
  - apply IH. now apply bar_step_ledger.
Qed.

Lemma start_ledger (cash0 comm : Q) : ledger_consistent (Cerebro.start cash0 comm).
Proof.
  unfold ledger_consistent. split; [apply start_inv|]. simpl. auto.
Qed.

Lemma broker_next_value (b : BackBroker) (bar : Bar) :
  value (fst (BackBroker_next b bar)) =
  cash (fst (BackBroker_next b bar)) +
  getvaluesize (pos_size (position (fst (BackBroker_next b bar)))) (bar_close bar).
Proof.
  unfold BackBroker_next. destruct (execute_all _ _ bar). reflexivity.
Qed.

Lemma run_returned (w : Z) (rule : Rule) (cash0 comm : Q) (data : list Bar)
    (st : Cerebro.RunState) :
  Cerebro.run w rule cash0 comm data = Returned st ->
  exists line,
    st = Cerebro._runonce rule (minperiod w) line 0 data (Cerebro.start cash0 comm).
Proof.
  unfold Cerebro.run. destruct (SMA_once _ w) as [line | e]; simpl; intro H.
  - exists line. congruence.
  - discriminate.
Qed.

Section Response.
Variable np_sqrt : Q -> Q.

(** The fields of the answer in terms of the state the engine returns. *)
Lemma run_backtest_returned (data : list Bar) (w : Z) (rule : Rule)
    (r : BacktestResponse.t) :
  run_backtest np_sqrt data w rule = Returned r ->
  exists st,
    Cerebro.run w rule initial_cash (1 # 1000) data = Returned st /\
    BacktestResponse.number_of_trades r = List.length (trades (Cerebro.strategy st)) /\
    BacktestResponse.equity_curve r = equity_curve (Cerebro.strategy st) /\
    BacktestResponse.win_rate r = round2 (win_rate_of (trades (Cerebro.strategy st))) /\
    BacktestResponse.final_portfolio_value r = round2 (getvalue (Cerebro.broker st)) /\
    BacktestResponse.sharpe_ratio r =
      fround2 (sharpe_ratio_of np_sqrt (equity_curve (Cerebro.strategy st))).
Proof.
  unfold run_backtest.
  destruct (Cerebro.run w rule initial_cash (1 # 1000) data) as [st | e];
    simpl; intro H; [|discriminate].
  exists st. inversion H; subst; clear H. simpl. repeat split.
Qed.

(** C5: the answer counts the trades that were notified as closed.  The
    trades that were opened exceed them by the position still open at the
    end: an open position has produced an opening notification and no
    entry of [trades].  Nothing is sold after the last bar: the final value
    is the cash plus the open position at the last close. *)
Theorem open_position_reports_no_trade :
  forall (data : list Bar) (w : Z) (rule : Rule) (r : BacktestResponse.t),
    run_backtest np_sqrt data w rule = Returned r ->
    exists st,
      Cerebro.run w rule initial_cash (1 # 1000) data = Returned st /\
      trades (Cerebro.strategy st) =
        map record_of (filter isclosed (Cerebro.notified st)) /\
      BacktestResponse.number_of_trades r =
        List.length (filter isclosed (Cerebro.notified st)) /\
      List.length (filter justopened (Cerebro.notified st)) =
        (BacktestResponse.number_of_trades r +
         Z.to_nat (pos_size (position (Cerebro.broker st))))%nat /\
      (Position_bool (position (Cerebro.broker st)) = true ->
         pos_size (position (Cerebro.broker st)) = 1%Z /\
         List.length (filter justopened (Cerebro.notified st)) =
           S (BacktestResponse.number_of_trades r)) /\
      (forall pre last,
         data = pre ++ [last] ->
         BacktestResponse.final_portfolio_value r =
           round2 (cash (Cerebro.broker st) +
                   getvaluesize (pos_size (position (Cerebro.broker st)))
                     (bar_close last))).
Proof.
  intros data w rule r Hr.
  destruct (run_backtest_returned data w rule r Hr)
    as [st [Hrun [Hn [_ [_ [Hfv _]]]]]].
  exists st. split; [exact Hrun|].
  destruct (run_returned _ _ _ _ _ _ Hrun) as [line Hst].
  assert (Hled : ledger_consistent st).
  { rewrite Hst. apply runonce_ledger, start_ledger. }
  destruct Hled as [[Hsize _] [_ [Htr Hcnt]]].
  rewrite Hn, Htr, length_map.
  repeat split.
  - exact Hcnt.
  - unfold Position_bool in H. destruct Hsize as [Hz | H1]; [|exact H1].
    rewrite Hz in H. discriminate.
  - unfold Position_bool in H. destruct Hsize as [Hz | H1].
    + rewrite Hz in H. discriminate.
    + rewrite Hcnt, H1. simpl. lia.
  - intros pre last Hdata. rewrite Hfv. f_equal. unfold getvalue.
    rewrite Hst, Hdata, runonce_app. cbn [Cerebro._runonce].
    destruct (bar_step_fields rule (minperiod w) line (0 + List.length pre) last
                (Cerebro._runonce rule (minperiod w) line 0 pre
                   (Cerebro.start initial_cash (1 # 1000))))
      as [_ [_ [_ [Hp [Hc Hv]]]]].
    rewrite Hv, Hp, Hc. apply broker_next_value.
Qed.

End Response.

(** The scenario of the specification: the position opened on the third
    bar stays open, one trade was opened and none is reported. *)
Lemma open_position_reports_no_trade_witness :
  exists st,
    Cerebro.run 2 ex_rule initial_cash (1 # 1000) ex_bars6 = Returned st /\
    Position_bool (position (Cerebro.broker st)) = true /\
    BacktestResponse.number_of_trades ex_response = 0%nat /\
    List.length (filter justopened (Cerebro.notified st)) = 1%nat.
Proof.
  destruct (open_position_reports_no_trade Numpy.sqrt15 ex_bars6 2 ex_rule
              ex_response ltac:(vm_compute; reflexivity))
    as [st [Hrun [Htr [Hn [Hcnt [Hopen Hval]]]]]].
  exists st.
  assert (Hp : Position_bool (position (Cerebro.broker st)) = true).
  { revert Hrun. vm_compute. intro H. inversion H. reflexivity. }
  destruct (Hopen Hp) as [_ Hj].
  split; [exact Hrun|]. split; [exact Hp|]. split; [reflexivity|].
  rewrite Hj. reflexivity.
Defined.

(** ** The metrics of [run_backtest] *)

Lemma Qeq_bool_false (a b : Q) : ~ a == b -> Qeq_bool a b = false.
Proof.
  intro H. destruct (Qeq_bool a b) eqn:E; [|reflexivity].
  apply Qeq_bool_iff in E. contradiction.
Qed.

Lemma winning_in (ts : list TradeRecord) (t : TradeRecord) :
  In t (filter (fun t => Qlt_bool 0 (pnl t)) ts) <-> In t ts /\ 0 < pnl t.
Proof.
  rewrite filter_In. now rewrite Qlt_bool_iff.
Qed.

Lemma win_rate_of_nonempty (ts : list TradeRecord) :
  ts <> [] ->
  win_rate_of ts =
  inject_Z (Z.of_nat (List.length (filter (fun t => Qlt_bool 0 (pnl t)) ts)))
  / inject_Z (Z.of_nat (List.length ts)) * 100.
Proof.
  intro H. unfold win_rate_of.
  destruct ts as [| t ts]; [congruence|]. reflexivity.
Qed.

Lemma win_rate_of_bounds (ts : list TradeRecord) : 0 <= win_rate_of ts <= 100.
Proof.
  destruct ts as [| t ts].
  - unfold win_rate_of. simpl. lra.
  - rewrite win_rate_of_nonempty by discriminate.
    set (wins := filter _ (t :: ts)).
    assert (Hle : (List.length wins <= List.length (t :: ts))%nat)
      by apply filter_length_le.
    set (a := inject_Z (Z.of_nat (List.length wins))).
    set (b := inject_Z (Z.of_nat (List.length (t :: ts)))).
    assert (Ha : 0 <= a).
    { unfold a. change 0 with (inject_Z 0). rewrite <- Zle_Qle. lia. }
    assert (Hb : 0 < b).
    { unfold b. change 0 with (inject_Z 0). rewrite <- Zlt_Qlt. simpl List.length. lia. }
    assert (Hab : a <= b).
    { unfold a, b. rewrite <- Zle_Qle. lia. }
    assert (H0 : 0 <= a / b).
    { apply Qle_shift_div_l; [exact Hb|]. lra. }
    assert (H1 : a / b <= 1).
    { apply Qle_shift_div_r; [exact Hb|]. lra. }
    lra.
Qed.

Lemma round2_zero : round2 0 == 0.
Proof. reflexivity. Qed.

Section Metrics.
Variable np_sqrt : Q -> Q.

(** C7: the win rate is the share of the recorded trades with a gross
    pnl above 0, times 100, and 0 for an empty ledger, where nothing is
    divided; the answer carries it rounded to two decimals. *)
Theorem win_rate_of_closed_trades :
  forall (data : list Bar) (w : Z) (rule : Rule) (r : BacktestResponse.t),
    run_backtest np_sqrt data w rule = Returned r ->
    exists st,
      Cerebro.run w rule initial_cash (1 # 1000) data = Returned st /\
      BacktestResponse.win_rate r = round2 (win_rate_of (trades (Cerebro.strategy st))) /\
      (BacktestResponse.number_of_trades r = 0%nat ->
         BacktestResponse.win_rate r == 0) /\
      (forall ts : list TradeRecord,
         (forall t, In t (filter (fun t => Qlt_bool 0 (pnl t)) ts) <->
                    In t ts /\ 0 < pnl t) /\
         (ts <> [] ->
            win_rate_of ts =
            inject_Z (Z.of_nat (List.length (filter (fun t => Qlt_bool 0 (pnl t)) ts)))
            / inject_Z (Z.of_nat (List.length ts)) * 100) /\
         (ts = [] -> win_rate_of ts = 0) /\
         0 <= win_rate_of ts <= 100).
Proof.
  intros data w rule r Hr.
  destruct (run_backtest_returned np_sqrt data w rule r Hr)
    as [st [Hrun [Hn [_ [Hw _]]]]].
  exists st. split; [exact Hrun|]. split; [exact Hw|]. split.
  - intro H0. rewrite Hw. rewrite Hn in H0.
    apply length_zero_iff_nil in H0. rewrite H0. reflexivity.
  - intro ts. split; [apply winning_in|].
    split; [apply win_rate_of_nonempty|].
    split; [intro H; now subst | apply win_rate_of_bounds].
Qed.

End Metrics.

(** One winning trade out of three: a third of 100. *)
Lemma win_rate_of_closed_trades_witness :
  win_rate_of ex_trades = inject_Z 1 / inject_Z 3 * 100 /\
  BacktestResponse.win_rate ex_response == 0.
Proof.
  destruct (win_rate_of_closed_trades Numpy.sqrt15 ex_bars6 2 ex_rule
              ex_response ltac:(vm_compute; reflexivity))
    as [st [_ [_ [Hzero Hall]]]].
  split.
  - apply (proj1 (proj2 (Hall ex_trades))). discriminate.
  - apply Hzero. reflexivity.
Defined.

(** *** Returns and the Sharpe ratio *)

Lemma returns_of_cons (a b : Q) (rest : list Q) :
  returns_of (a :: b :: rest) =
  fdiv (Fin (b - a)) (Fin a) :: returns_of (b :: rest).
Proof. reflexivity. Qed.

Lemma returns_of_length (v : list Q) :
  List.length (returns_of v) = (List.length v - 1)%nat.
Proof.
  destruct v as [| a v]; [reflexivity|].
  revert a. induction v as [| b v IH]; intro a.
  - reflexivity.
  - rewrite returns_of_cons. cbn [List.length]. rewrite IH.
    cbn [List.length]. lia.
Qed.

Lemma returns_of_nth (v : list Q) :
  forall (i : nat) (a b : Q),
    nth_error v i = Some a ->
    nth_error v (S i) = Some b ->
    nth_error (returns_of v) i = Some (fdiv (Fin (b - a)) (Fin a)).
Proof.
  destruct v as [| x v]; [intros [|i] a b H; discriminate|].
  revert x. induction v as [| y v IH]; intros x i a b Ha Hb.
  - destruct i; simpl in Hb; [discriminate|]. destruct i; discriminate.
  - rewrite returns_of_cons. destruct i as [| i].
    + simpl in Ha, Hb. inversion Ha; inversion Hb; subst. reflexivity.
    + cbn [nth_error]. apply IH; assumption.
Qed.

Lemma returns_of_simple (v : list Q) :
  (forall a, In a (removelast v) -> ~ a == 0) ->
  returns_of v = map Fin (simple_returns v).
Proof.
  destruct v as [| a v]; [reflexivity|].
  revert a. induction v as [| b v IH]; intros a H.
  - reflexivity.
  - rewrite returns_of_cons. cbn [simple_returns map].
    rewrite (IH b).
    + unfold fdiv. rewrite Qeq_bool_false; [reflexivity|].
      apply H. now left.
    + intros x Hx. apply H. now right.
Qed.

Lemma sum_map_Fin (l : list Q) : Numpy.sum (map Fin l) = Fin (fsum l).
Proof.
  induction l as [| x l IH]; [reflexivity|].
  cbn [map Numpy.sum fold_right]. fold (Numpy.sum (map Fin l)).
  rewrite IH. reflexivity.
Qed.

Lemma length_nonzero {A} (l : list A) :
  l <> [] -> ~ inject_Z (Z.of_nat (List.length l)) == 0.
Proof.
  intros Hne H. destruct l as [| x l]; [contradiction|].
  unfold Qeq in H. cbn [inject_Z Qnum Qden List.length] in H. lia.
Qed.

(** [np.mean] of finite numbers is their arithmetic mean. *)
Lemma mean_map_Fin (l : list Q) :
  l <> [] -> Numpy.mean (map Fin l) = Fin (arithmetic_mean l).
Proof.
  intro Hne. unfold Numpy.mean, arithmetic_mean.
  rewrite sum_map_Fin, length_map. unfold fdiv.
  now rewrite (Qeq_bool_false _ 0 (length_nonzero l Hne)).
Qed.

(** [np.std] of finite numbers is the root of their population variance. *)
Lemma std_map_Fin (sqrt : Q -> Q) (l : list Q) :
  l <> [] -> Numpy.std sqrt (map Fin l) = Fin (sqrt (population_variance l)).
Proof.
  intro Hne. unfold Numpy.std, population_variance.
  rewrite (mean_map_Fin l Hne), map_map. cbn [Numpy.fsub fmul].
  rewrite <- (map_map
                (fun x => (x - arithmetic_mean l) * (x - arithmetic_mean l)) Fin l).
  rewrite mean_map_Fin by (destruct l; [contradiction | discriminate]).
  unfold arithmetic_mean at 1. now rewrite length_map.
Qed.

Section Sharpe.
Variable np_sqrt : Q -> Q.

(** C6: the returns are the quotients (v_i - v_(i-1)) / v_(i-1) of the
    consecutive values of the curve, one fewer than the values; the Sharpe
    ratio is mean / std x sqrt(252) of them when the standard deviation is
    not zero, and 0 when it is; the answer carries it rounded to two
    decimals.  The mean is the sum of the returns over their number, and
    the standard deviation is the square root of the mean of the squared
    deviations from it.  A curve of at most one point has no returns, and
    its ratio is not a number. *)
Theorem sharpe_ratio_from_returns :
  forall (curve : list EquityPoint),
    let v := map portfolio_value curve in
    let returns := returns_of v in
    let sd := Numpy.std np_sqrt returns in
    List.length returns = (List.length curve - 1)%nat /\
    (forall i a b,
       nth_error v i = Some a -> nth_error v (S i) = Some b ->
       nth_error returns i = Some (fdiv (Fin (b - a)) (Fin a))) /\
    (forall i a b,
       nth_error v i = Some a -> nth_error v (S i) = Some b -> ~ a == 0 ->
       nth_error returns i = Some (Fin ((b - a) / a))) /\
    sd = Numpy.fsqrt np_sqrt
           (Numpy.mean
              (map (fun x => fmul (Numpy.fsub x (Numpy.mean returns))
                                  (Numpy.fsub x (Numpy.mean returns))) returns)) /\
    (fnonzero sd = true ->
       sharpe_ratio_of np_sqrt curve =
       fmul (fdiv (Numpy.mean returns) sd) (Fin (np_sqrt 252))) /\
    (fnonzero sd = false -> sharpe_ratio_of np_sqrt curve = Fin 0) /\
    (forall m s,
       Numpy.mean returns = Fin m -> sd = Fin s -> ~ s == 0 ->
       sharpe_ratio_of np_sqrt curve = Fin (m / s * np_sqrt 252)) /\
    (forall s, sd = Fin s -> s == 0 -> sharpe_ratio_of np_sqrt curve = Fin 0) /\
    (forall data w rule r,
       run_backtest np_sqrt data w rule = Returned r ->
       curve = BacktestResponse.equity_curve r ->
       BacktestResponse.sharpe_ratio r = fround2 (sharpe_ratio_of np_sqrt curve)) /\
    ((forall a, In a (removelast v) -> ~ a == 0) ->
       returns = map Fin (simple_returns v)) /\
    (forall r : list Q,
       returns = map Fin r -> r <> [] ->
       let mean_r := fsum r / inject_Z (Z.of_nat (List.length r)) in
       let stddev_r :=
         np_sqrt (fsum (map (fun x => (x - mean_r) * (x - mean_r)) r)
                  / inject_Z (Z.of_nat (List.length r))) in
       Numpy.mean returns = Fin mean_r /\
       sd = Fin stddev_r /\
       mean_r = arithmetic_mean r /\
       stddev_r = np_sqrt (population_variance r) /\
       (~ stddev_r == 0 ->
          sharpe_ratio_of np_sqrt curve = Fin (mean_r / stddev_r * np_sqrt 252)) /\
       (stddev_r == 0 -> sharpe_ratio_of np_sqrt curve = Fin 0)) /\
    ((List.length curve <= 1)%nat ->
       returns = [] /\ sharpe_ratio_of np_sqrt curve = NaN).
Proof.
  intros curve v returns sd.
  assert (Hnth : forall i a b,
       nth_error v i = Some a -> nth_error v (S i) = Some b ->
       nth_error returns i = Some (fdiv (Fin (b - a)) (Fin a))).
  { intros i a b. apply returns_of_nth. }
  assert (Htrue : fnonzero sd = true ->
       sharpe_ratio_of np_sqrt curve =
       fmul (fdiv (Numpy.mean returns) sd) (Fin (np_sqrt 252))).
  { intro H. unfold sharpe_ratio_of. fold v. fold returns. fold sd.
    now rewrite H. }
  assert (Hfalse : fnonzero sd = false -> sharpe_ratio_of np_sqrt curve = Fin 0).
  { intro H. unfold sharpe_ratio_of. fold v. fold returns. fold sd.
    now rewrite H. }
  assert (Hfin : forall m s,
       Numpy.mean returns = Fin m -> sd = Fin s -> ~ s == 0 ->
       sharpe_ratio_of np_sqrt curve = Fin (m / s * np_sqrt 252)).
  { intros m s Hm Hs Hnz. rewrite Htrue.
    - rewrite Hm, Hs. unfold fdiv. now rewrite Qeq_bool_false.
    - rewrite Hs. unfold fnonzero. now rewrite Qeq_bool_false. }
  assert (Hzero : forall s, sd = Fin s -> s == 0 ->
       sharpe_ratio_of np_sqrt curve = Fin 0).
  { intros s Hs Hz. apply Hfalse. rewrite Hs. unfold fnonzero.
    apply Qeq_bool_iff in Hz. now rewrite Hz. }
  split.
  { unfold returns. rewrite returns_of_length. unfold v. now rewrite length_map. }
  split; [exact Hnth|]. split.
  { intros i a b Ha Hb Hnz. rewrite (Hnth i a b Ha Hb).
    unfold fdiv. now rewrite Qeq_bool_false. }
  split; [reflexivity|]. split; [exact Htrue|]. split; [exact Hfalse|].
  split; [exact Hfin|]. split; [exact Hzero|].
  split.
  { intros data w rule r Hr Hc.
    destruct (run_backtest_returned np_sqrt data w rule r Hr)
      as [st [_ [_ [He [_ [_ Hs]]]]]].
    rewrite Hs, Hc, He. reflexivity. }
  split; [apply returns_of_simple|].
  split.
  { intros r Hr Hne mean_r stddev_r.
    assert (Hm : Numpy.mean returns = Fin mean_r).
    { rewrite Hr. apply (mean_map_Fin r Hne). }
    assert (Hs : sd = Fin stddev_r).
    { unfold sd. rewrite Hr. apply (std_map_Fin np_sqrt r Hne). }
    split; [exact Hm|]. split; [exact Hs|].
    split; [reflexivity|]. split; [reflexivity|].
    split; [apply (Hfin _ _ Hm Hs) | apply (Hzero _ Hs)]. }
  intro Hlen.
  assert (Hnil : returns = []).
  { apply length_zero_iff_nil. unfold returns. rewrite returns_of_length.
    unfold v. rewrite length_map. lia. }
  split; [exact Hnil|].
  unfold sharpe_ratio_of. fold v. fold returns. rewrite Hnil. reflexivity.
Qed.

End Sharpe.

(** The values 100, 110, 99 give the returns 1/10 and -1/10, whose standard
    deviation is not zero.  The values 100, 110, 132 give the returns 1/10
    and 1/5: their mean is 3/20 and their standard deviation 1/20, so the
    ratio is three times the root of 252. *)
Lemma sharpe_ratio_from_returns_witness :
  nth_error (returns_of (map portfolio_value ex_curve)) 1
    = Some (Fin ((99 - 110) / 110)) /\
  sharpe_ratio_of Numpy.sqrt15 ex_curve =
    fmul (fdiv (Numpy.mean (returns_of (map portfolio_value ex_curve)))
               (Numpy.std Numpy.sqrt15 (returns_of (map portfolio_value ex_curve))))
         (Fin (Numpy.sqrt15 252)) /\
  returns_of (map portfolio_value ex_rising_curve)
    = [Fin ((110 - 100) / 100); Fin ((132 - 110) / 110)] /\
  feq (Numpy.mean (returns_of (map portfolio_value ex_rising_curve))) (Fin (3 # 20)) /\
  feq (Numpy.std Numpy.sqrt15 (returns_of (map portfolio_value ex_rising_curve)))
      (Fin (1 # 20)) /\
  feq (sharpe_ratio_of Numpy.sqrt15 ex_rising_curve) (Fin (3 * Numpy.sqrt15 252)).
Proof.
  destruct (sharpe_ratio_from_returns Numpy.sqrt15 ex_curve)
    as (_ & _ & Hnth & _ & Htrue & _).
  destruct (sharpe_ratio_from_returns Numpy.sqrt15 ex_rising_curve)
    as (_ & _ & _ & _ & _ & _ & _ & _ & _ & Hsimple & Hstat & _).
  assert (Hret : returns_of (map portfolio_value ex_rising_curve)
                 = map Fin (simple_returns (map portfolio_value ex_rising_curve))).
  { apply Hsimple. vm_compute. intros a [H | [H | H]]; [| |contradiction];
      subst a; discriminate. }
  destruct (Hstat (simple_returns (map portfolio_value ex_rising_curve)) Hret
              ltac:(discriminate))
    as (Hm & Hs & _ & _ & Hsharpe & _).
  split.
  { apply (Hnth 1%nat 110 99); [reflexivity | reflexivity | vm_compute; discriminate]. }
  split.
  { apply Htrue. vm_compute. reflexivity. }
  split; [exact Hret|].
  split; [rewrite Hm; vm_compute; reflexivity|].
  split; [rewrite Hs; vm_compute; reflexivity|].
  rewrite Hsharpe by (vm_compute; discriminate).
  vm_compute. reflexivity.
Defined.

(** ** The handler *)

Lemma SMA_once_zero (src : list Q) : SMA_once src 0 = Raised ZeroDivisionError.
Proof. reflexivity. Qed.

Section Handler.
Variable np_sqrt : Q -> Q.
Variable strptime : string -> option Z.
Variable yf_history : string -> string -> string -> outcome (list Bar).

(** C8 (as the code has it): the handler checks the two dates and the
    download and nothing else; [sma_period] reaches [run_backtest] as it
    came, and the answer is the one of the run: its result, 400 for a
    ValueError, 500 for any other exception.  A window of 0 makes the
    moving average divide by zero inside the engine, which is answered
    with 500 as any unexpected failure is. *)
Theorem sma_period_is_not_validated :
  forall (request : BacktestRequest) (s e : Z) (data : list Bar),
    strptime (start_date request) = Some s ->
    strptime (end_date request) = Some e ->
    (s < e)%Z ->
    yf_history (ticker request) (start_date request) (end_date request)
      = Returned data ->
    data <> [] ->
    test_backtest_strategy np_sqrt strptime yf_history request =
      match run_backtest np_sqrt data (sma_period request) (rule request) with
      | Returned results => Returned results
      | Raised (ValueError msg) => Raised (HTTPException 400 msg)
      | Raised e =>
          Raised (HTTPException 500
                    (String.append "Internal server error: " (str e)))
      end /\
    (sma_period request = 0%Z ->
     Cerebro.run 0 (rule request) initial_cash (1 # 1000) data
       = Raised ZeroDivisionError /\
     test_backtest_strategy np_sqrt strptime yf_history request =
       Raised (HTTPException 500 "Internal server error: float division by zero")).
Proof.
  intros request s e data Hs He Hlt Hd Hne.
  assert (Hbody : handler_body np_sqrt strptime yf_history request =
                  run_backtest np_sqrt data (sma_period request) (rule request)).
  { unfold handler_body. rewrite Hs, He.
    replace (e <=? s)%Z with false by (symmetry; apply Z.leb_gt; exact Hlt).
    unfold download_stock_data. rewrite Hd.
    destruct data as [| bar data]; [congruence|]. reflexivity. }
  split.
  - unfold test_backtest_strategy. now rewrite Hbody.
  - intro H0. split.
    + unfold Cerebro.run. now rewrite SMA_once_zero.
    + unfold test_backtest_strategy. rewrite Hbody, H0.
      unfold run_backtest, Cerebro.run. now rewrite SMA_once_zero.
Qed.

End Handler.

Lemma sma_period_is_not_validated_witness :
  test_backtest_strategy Numpy.sqrt15 ex_strptime ex_history ex_request_long =
  match run_backtest Numpy.sqrt15 ex_bars6 7 ex_rule with
  | Returned results => Returned results
  | Raised (ValueError msg) => Raised (HTTPException 400 msg)
  | Raised e =>
      Raised (HTTPException 500 (String.append "Internal server error: " (str e)))
  end.
Proof.
  apply (proj1 (sma_period_is_not_validated Numpy.sqrt15 ex_strptime ex_history
                  ex_request_long 20220101 20221231 ex_bars6
                  eq_refl eq_refl eq_refl eq_refl ltac:(discriminate))).
Defined.

(** C8 fails as stated: with a window of 0 and valid dates and data the
    request is handed to the engine, whose ZeroDivisionError comes back as
    the catch-all 500; the request with a positive window of 7 on six bars
    gets the same kind of answer, so the caller cannot tell an invalid
    window from any other failure, and no 400 is produced. *)
Lemma nonpositive_window_counterexample :
  (sma_period ex_request_zero <= 0)%Z /\
  handler_body Numpy.sqrt15 ex_strptime ex_history ex_request_zero =
    run_backtest Numpy.sqrt15 ex_bars6 0 ex_rule /\
  Cerebro.run 0 ex_rule initial_cash (1 # 1000) ex_bars6 = Raised ZeroDivisionError /\
  test_backtest_strategy Numpy.sqrt15 ex_strptime ex_history ex_request_zero =
    Raised (HTTPException 500 "Internal server error: float division by zero") /\
  test_backtest_strategy Numpy.sqrt15 ex_strptime ex_history ex_request_long =
    Raised (HTTPException 500
              "Internal server error: array assignment index out of range") /\
  (0 < sma_period ex_request_long)%Z.
Proof.
  repeat split; try (vm_compute; congruence).
Qed.

(** ** The scenarios of the specification on the model *)

(** Closes 1, 2, 3, 4, 5 and a window of 3: no value on the first two
    bars, then 2, 3, 4. *)
Example SMA_once_worked_example :
  match SMA_once [1; 2; 3; 4; 5] 3 with
  | Returned [NaN; NaN; Fin a; Fin b; Fin c] => a == 2 /\ b == 3 /\ c == 4
  | _ => False
  end.
Proof. vm_compute. repeat split. Qed.

(** "buy" else "sell" on the six bars: one trade, bought at 12 and sold
    at 8, whose net pnl is below the gross one by the two commissions. *)
Example buy_sell_cycle_scenario :
  BacktestResponse.number_of_trades ex_cycle_response = 1%nat /\
  exists st t,
    Cerebro.run 2 ex_cycle_rule initial_cash (1 # 1000) ex_bars6 = Returned st /\
    trades (Cerebro.strategy st) = [t] /\
    pnl t == -4 /\
    pnl_net t == -4 - (1 # 1000) * 12 - (1 # 1000) * 8 /\
    pnl_net t < pnl t.
Proof.
  split; [reflexivity|].
  eexists. eexists. split; [vm_compute; reflexivity|].
  split; [reflexivity|]. repeat split.
Qed.

(** * Further properties of main.py *)

(** ** The /backtest/test handler: dates and download *)

Section HandlerEdges.
Variable np_sqrt : Q -> Q.
Variable strptime : string -> option Z.
Variable yf_history : string -> string -> string -> outcome (list Bar).

(** X1: when both dates parse and the start is not before the end, the
    400 raised in the body is caught by the handler's own
    [except Exception] and the caller gets a 500; neither the download
    nor the run is reached. *)
Theorem reversed_dates_answer_500 :
  forall (request : BacktestRequest) (s e : Z),
    strptime (start_date request) = Some s ->
    strptime (end_date request) = Some e ->
    (e <= s)%Z ->
    handler_body np_sqrt strptime yf_history request =
      Raised (HTTPException 400 "Start date must be before end date") /\
    exists detail,
      test_backtest_strategy np_sqrt strptime yf_history request =
        Raised (HTTPException 500 detail).
Proof.
  intros request s e Hs He Hle.
  assert (Hb : handler_body np_sqrt strptime yf_history request =
               Raised (HTTPException 400 "Start date must be before end date")).
  { unfold handler_body. rewrite Hs, He.
    apply Z.leb_le in Hle. now rewrite Hle. }
  split; [exact Hb|].
  unfold test_backtest_strategy. rewrite Hb. eexists. reflexivity.
Qed.

(** X2: a date that does not parse is answered with 400, whatever the
    ticker, the window and the download would give. *)
Theorem malformed_date_answers_400 :
  forall (request : BacktestRequest),
    strptime (start_date request) = None \/ strptime (end_date request) = None ->
    exists detail,
      test_backtest_strategy np_sqrt strptime yf_history request =
        Raised (HTTPException 400 detail).
Proof.
  intros request H. unfold test_backtest_strategy, handler_body.
  destruct (strptime (start_date request)) as [s|].
  - destruct H as [H | H]; [discriminate|]. rewrite H. eexists. reflexivity.
  - eexists. reflexivity.
Qed.

(** X3: [download_stock_data] hands back only a frame with at least one
    bar, the one the download delivered; an empty frame and every failure
    of the download leave it as a 400. *)
Theorem download_stock_data_outcomes :
  forall (t sd ed : string),
    (forall data,
       download_stock_data yf_history t sd ed = Returned data ->
       data <> [] /\ yf_history t sd ed = Returned data) /\
    (forall ex,
       download_stock_data yf_history t sd ed = Raised ex ->
       (yf_history t sd ed = Returned [] \/ exists e0, yf_history t sd ed = Raised e0) /\
       exists detail, ex = HTTPException 400 detail).
Proof.
  intros t sd ed. unfold download_stock_data.
  destruct (yf_history t sd ed) as [[| bar data] | e0]; split; intros x H;
    inversion H; subst.
  - split; [left; reflexivity | eexists; reflexivity].
  - split; [discriminate | reflexivity].
  - split; [right; eexists; reflexivity | eexists; reflexivity].
Qed.

(** X4: with valid dates, the 400 of a failed or empty download does not
    reach the caller either: the handler turns it into a 500. *)
Theorem failed_download_answers_500 :
  forall (request : BacktestRequest) (s e : Z),
    strptime (start_date request) = Some s ->
    strptime (end_date request) = Some e ->
    (s < e)%Z ->
    (yf_history (ticker request) (start_date request) (end_date request) = Returned [] \/
     exists e0,
       yf_history (ticker request) (start_date request) (end_date request) = Raised e0) ->
    exists detail,
      test_backtest_strategy np_sqrt strptime yf_history request =
        Raised (HTTPException 500 detail).
Proof.
  intros request s e Hs He Hlt Hd.
  unfold test_backtest_strategy, handler_body. rewrite Hs, He.
  replace (e <=? s)%Z with false by (symmetry; apply Z.leb_gt; exact Hlt).
  unfold download_stock_data.
  destruct Hd as [Hd | [e0 Hd]]; rewrite Hd; cbn [bind]; eexists; reflexivity.
Qed.

(** X5: the handler answers with a result only when both dates parsed in
    the right order, the download delivered bars and the run on exactly
    these bars, with the window and rule of the request, returned it;
    everything else it answers is an HTTPException with status 400 or 500. *)
Theorem handler_answers :
  forall (request : BacktestRequest),
    (forall r,
       test_backtest_strategy np_sqrt strptime yf_history request = Returned r ->
       exists s e data,
         strptime (start_date request) = Some s /\
         strptime (end_date request) = Some e /\
         (s < e)%Z /\
         yf_history (ticker request) (start_date request) (end_date request)
           = Returned data /\
         data <> [] /\
         run_backtest np_sqrt data (sma_period request) (rule request) = Returned r) /\
    (forall ex,
       test_backtest_strategy np_sqrt strptime yf_history request = Raised ex ->
       exists code detail,
         ex = HTTPException code detail /\ (code = 400%Z \/ code = 500%Z)).
Proof.
  intro request. split.
  - intros r H. unfold test_backtest_strategy in H.
    destruct (handler_body np_sqrt strptime yf_history request) as [r0 | ex] eqn:Hb.
    + inversion H; subst r0; clear H.
      unfold handler_body in Hb.
      destruct (strptime (start_date request)) as [s|]; [|discriminate].
      destruct (strptime (end_date request)) as [e|]; [|discriminate].
      destruct (e <=? s)%Z eqn:Hle; [discriminate|].
      apply Z.leb_gt in Hle.
      destruct (download_stock_data yf_history (ticker request)
                  (start_date request) (end_date request)) as [data | ex] eqn:Hd;
        [|discriminate].
      cbn [bind] in Hb.
      destruct (proj1 (download_stock_data_outcomes _ _ _) data Hd) as [Hne Hy].
      exists s, e, data. repeat split; assumption.
    + destruct ex; discriminate.
  - intros ex H. unfold test_backtest_strategy in H.
    destruct (handler_body np_sqrt strptime yf_history request) as [r0 | e0];
      [discriminate|].
    destruct e0; inversion H; subst; eexists; eexists; split;
      try reflexivity; auto.
Qed.

End HandlerEdges.

Lemma reversed_dates_answer_500_witness :
  exists detail,
    test_backtest_strategy Numpy.sqrt15 ex_strptime ex_history
      (mkRequest "AAPL" "2022-12-31" "2022-01-01" 10 ex_rule)
    = Raised (HTTPException 500 detail).
Proof.
  apply (proj2 (reversed_dates_answer_500 Numpy.sqrt15 ex_strptime ex_history
                  (mkRequest "AAPL" "2022-12-31" "2022-01-01" 10 ex_rule)
                  20221231 20220101 eq_refl eq_refl ltac:(lia))).
Defined.

Lemma malformed_date_answers_400_witness :
  exists detail,
    test_backtest_strategy Numpy.sqrt15 ex_strptime ex_history
      (mkRequest "AAPL" "yesterday" "2022-12-31" 10 ex_rule)
    = Raised (HTTPException 400 detail).
Proof.
  apply (malformed_date_answers_400 Numpy.sqrt15 ex_strptime ex_history
           (mkRequest "AAPL" "yesterday" "2022-12-31" 10 ex_rule)).
  left. reflexivity.
Defined.

Lemma download_stock_data_outcomes_witness :
  ex_bars6 <> [] /\ ex_history "AAPL" "2022-01-01" "2022-12-31" = Returned ex_bars6.
Proof.
  apply (proj1 (download_stock_data_outcomes ex_history "AAPL" "2022-01-01" "2022-12-31")
           ex_bars6).
  reflexivity.
Defined.

Lemma failed_download_answers_500_witness :
  exists detail,
    test_backtest_strategy Numpy.sqrt15 ex_strptime
      (fun _ _ _ => Returned [])
      (mkRequest "NOSUCH" "2022-01-01" "2022-12-31" 10 ex_rule)
    = Raised (HTTPException 500 detail).
Proof.
  apply (failed_download_answers_500 Numpy.sqrt15 ex_strptime
           (fun _ _ _ => Returned [])
           (mkRequest "NOSUCH" "2022-01-01" "2022-12-31" 10 ex_rule)
           20220101 20221231 eq_refl eq_refl ltac:(lia)).
  left. reflexivity.
Defined.

Lemma handler_answers_witness :
  exists code detail,
    HTTPException 500 "Internal server error: float division by zero"
      = HTTPException code detail /\ (code = 400%Z \/ code = 500%Z).
Proof.
  apply (proj2 (handler_answers Numpy.sqrt15 ex_strptime ex_history ex_request_zero)).
  vm_compute. reflexivity.
Defined.

(** ** Rules that cannot buy, rules that cannot sell *)

Lemma round_half_even_compat (p q : Q) :
  p == q -> round_half_even p = round_half_even q.
Proof.
  intro H. unfold round_half_even, Qlt_bool.
  rewrite (Qfloor_comp _ _ H).
  assert (Hr : p - inject_Z (Qfloor q) == q - inject_Z (Qfloor q))
    by (rewrite H; reflexivity).
  rewrite (Qleb_comp _ _ (Qeq_refl (1 # 2)) _ _ Hr).
  rewrite (Qleb_comp _ _ Hr _ _ (Qeq_refl (1 # 2))).
  reflexivity.
Qed.

Lemma round2_compat (p q : Q) : p == q -> round2 p == round2 q.
Proof.
  intro H. unfold round2.
  rewrite (round_half_even_compat (p * 100) (q * 100)); [reflexivity|].
  rewrite H. reflexivity.
Qed.

Lemma chosen_action_cases (rule : Rule) (env : Lines) :
  chosen_action rule env = then_action rule \/
  chosen_action rule env = else_action rule.
Proof.
  unfold chosen_action. destruct (_evaluate_condition _ _ _); auto.
Qed.

Lemma bar_step_untouched (rule : Rule) (mp : Z) (line : list pyfloat) (i : nat)
    (bar : Bar) (cash0 comm : Q) (st : Cerebro.RunState) :
  then_action rule <> "buy"%string ->
  else_action rule <> "buy"%string ->
  untouched cash0 comm st ->
  untouched cash0 comm (Cerebro.bar_step rule mp line i bar st).
Proof.
  intros Ht He [Hb [Hv [Hrt [Hn [Htr Hc]]]]].
  unfold Cerebro.bar_step.
  rewrite broker_next_idle by (rewrite Hb; reflexivity).
  rewrite Hrt. cbn [addnotifications Cerebro._notify fold_left].
  rewrite Hb. cbn [cash commission position pos_size].
  set (b1 := mkBroker cash0 comm (mkPosition 0 0) []
               (cash0 + getvaluesize 0 (bar_close bar))).
  assert (Hv1 : value b1 == cash0).
  { unfold b1, getvaluesize. cbn [value]. change (inject_Z 0) with 0. ring. }
  destruct (mp <=? Z.of_nat (S i))%Z.
  - match goal with |- context [next ?r ?e ?s ?bb] =>
      pose proof (next_strategy r e s bb) as Hs;
      pose proof (next_broker r e s bb) as Hk;
      destruct (next r e s bb) as [s2 b2] end.
    cbn [fst snd] in Hs, Hk.
    assert (Hact : String.eqb
              (chosen_action rule
                 (mkLines (bar_close bar) (bar_date bar) (nth i line NaN))) "buy"
            = false).
    { apply String.eqb_neq.
      destruct (chosen_action_cases rule
                  (mkLines (bar_close bar) (bar_date bar) (nth i line NaN)))
        as [-> | ->]; assumption. }
    rewrite Hact in Hk. cbn [andb] in Hk.
    replace (Position_bool (position b1)) with false in Hk by reflexivity.
    rewrite andb_false_r in Hk. subst b2 s2.
    unfold untouched. cbn. rewrite Hn, Htr.
    repeat split; try reflexivity; try exact Hv1.
    apply Forall_app. split; [exact Hc|].
    constructor; [exact Hv1 | constructor].
  - unfold untouched. cbn. rewrite Hn.
    repeat split; try reflexivity; try assumption.
Qed.

Lemma runonce_untouched (rule : Rule) (mp : Z) (line : list pyfloat)
    (cash0 comm : Q) (bars : list Bar) :
  then_action rule <> "buy"%string ->
  else_action rule <> "buy"%string ->
  forall (i : nat) (st : Cerebro.RunState),
    untouched cash0 comm st ->
    untouched cash0 comm (Cerebro._runonce rule mp line i bars st).
Proof.
  intros Ht He. induction bars as [| bar bars IH]; intros i st H.
  - exact H.
  - cbn [Cerebro._runonce]. apply IH. now apply bar_step_untouched.
Qed.

Lemma start_untouched (cash0 comm : Q) :
  untouched cash0 comm (Cerebro.start cash0 comm).
Proof.
  unfold untouched, Cerebro.start, broker_init. cbn.
  repeat split; try reflexivity. constructor.
Qed.

Section NoBuy.
Variable np_sqrt : Q -> Q.

(** X6: a rule neither of whose actions is the string "buy" (for
    instance "Buy", or "sell"/"hold") never touches the account: whenever
    the run returns, no trade is reported, every point of the curve shows
    the initial 10000, and final value, total return and win rate are
    10000, 0 and 0. *)
Theorem rule_without_buy_never_trades :
  forall (data : list Bar) (w : Z) (rule : Rule) (r : BacktestResponse.t),
    then_action rule <> "buy"%string ->
    else_action rule <> "buy"%string ->
    run_backtest np_sqrt data w rule = Returned r ->
    BacktestResponse.number_of_trades r = 0%nat /\
    Forall (fun p => portfolio_value p == 10000) (BacktestResponse.equity_curve r) /\
    BacktestResponse.final_portfolio_value r == 10000 /\
    BacktestResponse.total_return r == 0 /\
    BacktestResponse.win_rate r == 0.
Proof.
  intros data w rule r Ht He Hr.
  destruct (run_backtest_returned np_sqrt data w rule r Hr)
    as [st [Hrun [Hn [Hc [Hw [Hf _]]]]]].
  destruct (run_returned _ _ _ _ _ _ Hrun) as [line Hst].
  assert (Hu : untouched initial_cash (1 # 1000) st).
  { rewrite Hst. apply runonce_untouched; try assumption. apply start_untouched. }
  destruct Hu as [Hb [Hv [_ [_ [Htr Hcurve]]]]].
  rewrite Hn, Hc, Hw, Hf, Htr.
  split; [reflexivity|]. split; [exact Hcurve|]. split.
  - unfold getvalue. rewrite (round2_compat _ 10000 Hv). reflexivity.
  - split; [|reflexivity].
    unfold run_backtest in Hr. rewrite Hrun in Hr. cbn [bind] in Hr.
    inversion Hr; subst r; clear Hr. cbn [BacktestResponse.total_return].
    rewrite (round2_compat _ 0); [reflexivity|].
    unfold getvalue. rewrite Hv. reflexivity.
Qed.

End NoBuy.

Lemma rule_without_buy_never_trades_witness :
  exists r,
    run_backtest Numpy.sqrt15 ex_bars6 2 (mkRule "price > sma" "Buy" "sell") = Returned r /\
    BacktestResponse.number_of_trades r = 0%nat /\
    BacktestResponse.final_portfolio_value r == 10000.
Proof.
  eexists. split; [vm_compute; reflexivity|].
  pose proof (rule_without_buy_never_trades Numpy.sqrt15 ex_bars6 2
                (mkRule "price > sma" "Buy" "sell") _
                ltac:(discriminate) ltac:(discriminate) eq_refl) as H.
  split; [exact (proj1 H) | exact (proj1 (proj2 (proj2 H)))].
Defined.

Lemma open_notification_not_closed (cur : Trade) (ex : ExecBit) :
  tr_size cur = 0%Z -> ex_opened ex = 1%Z -> ex_closed ex = 0%Z ->
  filter isclosed (snd (addnotifications cur [ex])) = [].
Proof.
  intros Hsz Ho Hc. cbn [addnotifications]. unfold _addnotification.
  rewrite Ho, Hc. cbn [Z.eqb negb andb app].
  assert (Hbase : tr_size (if isclosed cur then Trade_new else cur) = 0%Z).
  { destruct (isclosed cur); [reflexivity | exact Hsz]. }
  unfold Trade_update. cbn [Z.eqb]. rewrite Hbase. cbn. reflexivity.
Qed.

Lemma bar_step_never_sold (rule : Rule) (mp : Z) (line : list pyfloat) (i : nat)
    (bar : Bar) (st : Cerebro.RunState) :
  then_action rule <> "sell"%string ->
  else_action rule <> "sell"%string ->
  never_sold st ->
  never_sold (Cerebro.bar_step rule mp line i bar st).
Proof.
  intros Ht He [Hled [Hns Hcl]].
  pose proof (bar_step_ledger rule mp line i bar st Hled) as Hled'.
  split; [exact Hled'|]. split.
  - intros pc Hsub. rewrite bar_step_broker in Hsub.
    destruct Hled as [Hinv _].
    destruct (broker_next_inv _ bar Hinv) as [_ Hempty].
    destruct (mp <=? Z.of_nat (S i))%Z.
    + rewrite next_broker in Hsub.
      match type of Hsub with context [chosen_action ?r ?e] =>
        assert (Hact : String.eqb (chosen_action r e) "sell" = false)
          by (apply String.eqb_neq;
              destruct (chosen_action_cases r e) as [-> | ->]; assumption)
      end.
      rewrite Hact in Hsub. cbn [andb] in Hsub.
      destruct (String.eqb _ "buy" && _).
      * unfold buy, submit in Hsub. cbn in Hsub. rewrite Hempty in Hsub.
        discriminate.
      * rewrite Hempty in Hsub. discriminate.
    + rewrite Hempty in Hsub. discriminate.
  - destruct (bar_step_fields rule mp line i bar st) as [_ [Hnt _]].
    rewrite Hnt, filter_app, Hcl. cbn [app].
    destruct Hled as [[Hsize Hsub] [Hsz _]].
    destruct (Cerebro.broker st) as [c k [sz pp] sub v] eqn:Eb.
    cbn [position pos_size submitted] in *.
    destruct Hsub as [Hs | [[Hz [pc Hs]] | [Hz [pc Hs]]]]; subst sub.
    + rewrite broker_next_idle by reflexivity. reflexivity.
    + subst sz. rewrite broker_next_buy.
      destruct (Qle_bool 0 _ && negb _); cbn [snd].
      * apply open_notification_not_closed; [exact Hsz | reflexivity | reflexivity].
      * reflexivity.
    + exfalso. exact (Hns pc eq_refl).
Qed.

Lemma runonce_never_sold (rule : Rule) (mp : Z) (line : list pyfloat)
    (bars : list Bar) :
  then_action rule <> "sell"%string ->
  else_action rule <> "sell"%string ->
  forall (i : nat) (st : Cerebro.RunState),
    never_sold st -> never_sold (Cerebro._runonce rule mp line i bars st).
Proof.
  intros Ht He. induction bars as [| bar bars IH]; intros i st H.
  - exact H.
  - cbn [Cerebro._runonce]. apply IH. now apply bar_step_never_sold.
Qed.

Lemma start_never_sold (cash0 comm : Q) : never_sold (Cerebro.start cash0 comm).
Proof.
  split; [apply start_ledger|]. split; [intros pc H; discriminate | reflexivity].
Qed.

Section NoSell.
Variable np_sqrt : Q -> Q.

(** X7: a rule neither of whose actions is the string "sell" never
    closes a position: whatever the prices, the answer reports no trade
    and a win rate of 0, and at most one unit was ever bought. *)
Theorem rule_without_sell_reports_no_trade :
  forall (data : list Bar) (w : Z) (rule : Rule) (r : BacktestResponse.t),
    then_action rule <> "sell"%string ->
    else_action rule <> "sell"%string ->
    run_backtest np_sqrt data w rule = Returned r ->
    BacktestResponse.number_of_trades r = 0%nat /\
    BacktestResponse.win_rate r == 0 /\
    exists st,
      Cerebro.run w rule initial_cash (1 # 1000) data = Returned st /\
      (List.length (filter justopened (Cerebro.notified st)) <= 1)%nat.
Proof.
  intros data w rule r Ht He Hr.
  destruct (run_backtest_returned np_sqrt data w rule r Hr)
    as [st [Hrun [Hn [_ [Hw _]]]]].
  destruct (run_returned _ _ _ _ _ _ Hrun) as [line Hst].
  assert (Hns : never_sold st).
  { rewrite Hst. apply runonce_never_sold; try assumption. apply start_never_sold. }
  destruct Hns as [[[Hsize _] [_ [Htr Hcnt]]] [_ Hcl]].
  rewrite Hcl in Htr, Hcnt. cbn in Htr, Hcnt.
  rewrite Hn, Hw, Htr. split; [reflexivity|]. split; [reflexivity|].
  exists st. split; [exact Hrun|]. rewrite Hcnt.
  destruct Hsize as [-> | ->]; cbn; lia.
Qed.

End NoSell.

Lemma rule_without_sell_reports_no_trade_witness :
  BacktestResponse.number_of_trades ex_response = 0%nat /\
  BacktestResponse.win_rate ex_response == 0.
Proof.
  pose proof (rule_without_sell_reports_no_trade Numpy.sqrt15 ex_bars6 2 ex_rule
                ex_response ltac:(discriminate) ltac:(discriminate)
                ltac:(vm_compute; reflexivity)) as H.
  split; [exact (proj1 H) | exact (proj1 (proj2 H))].
Defined.

(** ** The points of the curve and the bars *)

Lemma bar_step_curve (rule : Rule) (mp : Z) (line : list pyfloat) (i : nat)
    (bar : Bar) (st : Cerebro.RunState) :
  equity_curve (Cerebro.strategy (Cerebro.bar_step rule mp line i bar st)) =
  equity_curve (Cerebro.strategy st) ++
  (if (mp <=? Z.of_nat (S i))%Z
   then [mkEquityPoint (bar_date bar)
           (getvalue (fst (BackBroker_next (Cerebro.broker st) bar)))
           (bar_close bar) (nth i line NaN)]
   else []).
Proof.
  open_bar_step st bar.
  destruct (mp <=? Z.of_nat (S i))%Z.
  - match goal with |- context [next ?r ?e ?s ?bb] =>
      pose proof (next_strategy r e s bb) as Hn;
      destruct (next r e s bb) as [s2 b2] end.
    cbn [fst] in Hn. subst s2. cbn [Cerebro.strategy equity_curve].
    now rewrite notify_keeps_curve.
  - cbn [Cerebro.strategy]. now rewrite notify_keeps_curve, app_nil_r.
Qed.

Lemma runonce_curve_bars (rule : Rule) (mp : Z) (line : list pyfloat)
    (bars : list Bar) :
  (1 <= mp)%Z ->
  forall (i : nat) (st : Cerebro.RunState),
    map (fun p => (date p, price p))
      (equity_curve (Cerebro.strategy (Cerebro._runonce rule mp line i bars st))) =
    map (fun p => (date p, price p)) (equity_curve (Cerebro.strategy st)) ++
    map (fun b => (bar_date b, bar_close b)) (skipn (Z.to_nat mp - 1 - i) bars).
Proof.
  intro Hmp. induction bars as [| bar bars IH]; intros i st;
    cbn [Cerebro._runonce].
  - rewrite skipn_nil. cbn. now rewrite app_nil_r.
  - rewrite IH, bar_step_curve, map_app, <- app_assoc. f_equal.
    destruct (mp <=? Z.of_nat (S i))%Z eqn:E.
    + apply Z.leb_le in E.
      replace (Z.to_nat mp - 1 - i)%nat with 0%nat by lia.
      replace (Z.to_nat mp - 1 - S i)%nat with 0%nat by lia.
      reflexivity.
    + apply Z.leb_gt in E.
      replace (Z.to_nat mp - 1 - i)%nat with (S (Z.to_nat mp - 1 - S i)) by lia.
      reflexivity.
Qed.

Section CurveBars.
Variable np_sqrt : Q -> Q.

(** X8: for a window of at least 1 the curve the answer carries is laid
    over the bars from the [w]-th on, in their order: its dates and
    prices are the dates and closes of these bars, and the first [w - 1]
    bars have no point. *)
Theorem equity_curve_follows_bars :
  forall (data : list Bar) (w : Z) (rule : Rule) (r : BacktestResponse.t),
    (1 <= w)%Z ->
    run_backtest np_sqrt data w rule = Returned r ->
    map (fun p => (date p, price p)) (BacktestResponse.equity_curve r) =
    map (fun b => (bar_date b, bar_close b)) (skipn (Z.to_nat (w - 1)) data).
Proof.
  intros data w rule r Hw Hr.
  destruct (run_backtest_returned np_sqrt data w rule r Hr)
    as [st [Hrun [_ [Hc _]]]].
  destruct (run_returned _ _ _ _ _ _ Hrun) as [line Hst].
  rewrite Hc, Hst, runonce_curve_bars by (unfold minperiod; lia).
  cbn [Cerebro.start Cerebro.strategy SMAStrategy_init equity_curve map app].
  f_equal. f_equal. unfold minperiod. lia.
Qed.

(** X9: a window longer than the series makes the engine fail with the
    IndexError of the moving average; no answer is built. *)
Theorem window_longer_than_series_raises :
  forall (data : list Bar) (w : Z) (rule : Rule),
    (Z.of_nat (List.length data) < w)%Z ->
    run_backtest np_sqrt data w rule = Raised IndexError.
Proof.
  intros data w rule Hw.
  unfold run_backtest, Cerebro.run, SMA_once, Average_once.
  replace (Z.to_nat (w - (w - 1))) with 1%nat by lia.
  cbn [once_from].
  replace (w =? 0)%Z with false by (symmetry; apply Z.eqb_neq; lia).
  unfold py_setitem. rewrite repeat_length, length_map.
  replace (Z.of_nat (List.length data) <=? w - 1)%Z with true
    by (symmetry; apply Z.leb_le; lia).
  rewrite orb_true_r. reflexivity.
Qed.

(** X10: when the series has exactly as many bars as the window, the
    curve has a single point, numpy's mean and deviation of no returns are
    not numbers, and the answer carries NaN as its Sharpe ratio. *)
Theorem single_point_curve_has_nan_sharpe :
  forall (data : list Bar) (w : Z) (rule : Rule),
    (1 <= w)%Z ->
    Z.of_nat (List.length data) = w ->
    exists r,
      run_backtest np_sqrt data w rule = Returned r /\
      List.length (BacktestResponse.equity_curve r) = 1%nat /\
      BacktestResponse.sharpe_ratio r = NaN.
Proof.
  intros data w rule Hw Hn.
  destruct (SMA_once_returns (map bar_close data) w) as [line [Hl _]].
  { rewrite length_map. lia. }
  unfold run_backtest, Cerebro.run. rewrite Hl. cbn [bind].
  eexists. split; [reflexivity|].
  cbn [BacktestResponse.equity_curve BacktestResponse.sharpe_ratio].
  set (st := Cerebro._runonce rule (minperiod w) line 0 data
               (Cerebro.start initial_cash (1 # 1000))).
  assert (Hlen : List.length (equity_curve (Cerebro.strategy st)) = 1%nat).
  { unfold st. rewrite runonce_curve_length by (unfold minperiod; lia).
    unfold minperiod. cbn. lia. }
  split; [exact Hlen|].
  destruct (equity_curve (Cerebro.strategy st)) as [| p [| p' c]];
    try discriminate.
  reflexivity.
Qed.

End CurveBars.

Lemma equity_curve_follows_bars_witness :
  map (fun p => (date p, price p)) (BacktestResponse.equity_curve ex_response) =
  map (fun b => (bar_date b, bar_close b)) (skipn (Z.to_nat (2 - 1)) ex_bars6).
Proof.
  apply (equity_curve_follows_bars Numpy.sqrt15 ex_bars6 2 ex_rule ex_response
           ltac:(lia)).
  vm_compute. reflexivity.
Defined.

Lemma window_longer_than_series_raises_witness :
  run_backtest Numpy.sqrt15 ex_bars6 7 ex_rule = Raised IndexError.
Proof.
  apply (window_longer_than_series_raises Numpy.sqrt15 ex_bars6 7 ex_rule).
  simpl. lia.
Defined.

Lemma single_point_curve_has_nan_sharpe_witness :
  exists r,
    run_backtest Numpy.sqrt15 ex_bars6 6 ex_rule = Returned r /\
    List.length (BacktestResponse.equity_curve r) = 1%nat /\
    BacktestResponse.sharpe_ratio r = NaN.
Proof.
  apply (single_point_curve_has_nan_sharpe Numpy.sqrt15 ex_bars6 6 ex_rule
           ltac:(lia) eq_refl).
Defined.

(** ** A curve that does not move *)

Lemma returns_of_constant (c : Q) (v : list Q) :
  ~ c == 0 ->
  Forall (fun x => x == c) v ->
  Forall is_zero (returns_of v).
Proof.
  intros Hc Hv. destruct v as [| a v]; [constructor|].
  revert a Hv. induction v as [| b v IH]; intros a Hv.
  - constructor.
  - rewrite returns_of_cons.
    inversion Hv as [| ? ? Ha Hv']; subst. inversion Hv' as [| ? ? Hb _]; subst.
    constructor; [|now apply IH].
    unfold fdiv. rewrite Qeq_bool_false by (rewrite Ha; exact Hc).
    eexists. split; [reflexivity|]. rewrite Ha, Hb. field. exact Hc.
Qed.

Lemma sum_of_zeros (l : list pyfloat) : Forall is_zero l -> is_zero (Numpy.sum l).
Proof.
  induction 1 as [| x l [q [-> Hq]] _ [s [IHs Hs]]]; unfold Numpy.sum; cbn [fold_right].
  - exists 0. split; reflexivity.
  - unfold Numpy.sum in IHs. rewrite IHs. cbn [Numpy.fadd].
    eexists. split; [reflexivity|]. rewrite Hq, Hs. reflexivity.
Qed.

Lemma mean_of_zeros (l : list pyfloat) :
  l <> [] -> Forall is_zero l -> is_zero (Numpy.mean l).
Proof.
  intros Hne Hl. unfold Numpy.mean.
  destruct (sum_of_zeros l Hl) as [s [-> Hs]].
  unfold fdiv. rewrite Qeq_bool_false.
  - eexists. split; [reflexivity|]. rewrite Hs. unfold Qdiv. ring.
  - change 0 with (inject_Z 0). rewrite inject_Z_injective.
    destruct l; [congruence | cbn [List.length]; lia].
Qed.

Section ConstantCurve.
Variable np_sqrt : Q -> Q.

(** X11: on a curve of at least two points that all show one value other
    than zero the returns are all 0, and with a square root that maps 0 to
    0 their deviation is 0: the Sharpe ratio is the fallback 0, not a
    division by that deviation. *)
Theorem constant_curve_has_zero_sharpe :
  forall (curve : list EquityPoint) (c : Q),
    (forall q, q == 0 -> np_sqrt q == 0) ->
    ~ c == 0 ->
    (2 <= List.length curve)%nat ->
    Forall (fun p => portfolio_value p == c) curve ->
    Forall is_zero (returns_of (map portfolio_value curve)) /\
    sharpe_ratio_of np_sqrt curve = Fin 0.
Proof.
  intros curve c Hsqrt Hc Hlen Hall.
  set (v := map portfolio_value curve).
  assert (Hv : Forall (fun x => x == c) v).
  { unfold v. apply Forall_map. exact Hall. }
  pose proof (returns_of_constant c v Hc Hv) as Hr.
  split; [exact Hr|].
  assert (Hne : returns_of v <> []).
  { intro H. apply (f_equal (@List.length _)) in H.
    rewrite returns_of_length in H. unfold v in H. rewrite length_map in H.
    cbn in H. lia. }
  destruct (mean_of_zeros _ Hne Hr) as [m [Hm Hm0]].
  assert (Hdev : Forall is_zero
            (map (fun x => fmul (Numpy.fsub x (Numpy.mean (returns_of v)))
                                (Numpy.fsub x (Numpy.mean (returns_of v))))
                 (returns_of v))).
  { apply Forall_map. rewrite Hm.
    eapply Forall_impl; [|exact Hr].
    intros x [q [-> Hq]]. cbn [Numpy.fsub fmul].
    eexists. split; [reflexivity|]. rewrite Hq, Hm0. ring. }
  assert (Hne' : map (fun x => fmul (Numpy.fsub x (Numpy.mean (returns_of v)))
                                (Numpy.fsub x (Numpy.mean (returns_of v))))
                 (returns_of v) <> []).
  { intro H. apply map_eq_nil in H. contradiction. }
  destruct (mean_of_zeros _ Hne' Hdev) as [s [Hs Hs0]].
  unfold sharpe_ratio_of. fold v. unfold Numpy.std. rewrite Hs.
  cbn [Numpy.fsqrt fnonzero].
  pose proof (Hsqrt s Hs0) as Hz. apply Qeq_bool_iff in Hz. rewrite Hz.
  reflexivity.
Qed.

End ConstantCurve.

Lemma sqrt15_zero (q : Q) : q == 0 -> Numpy.sqrt15 q == 0.
Proof.
  intro H. unfold Numpy.sqrt15.
  assert (Hf : Qfloor (q * inject_Z (10 ^ 30)) = 0%Z).
  { rewrite (Qfloor_comp _ 0); [reflexivity|]. rewrite H. ring. }
  rewrite Hf. reflexivity.
Qed.

Lemma constant_curve_has_zero_sharpe_witness :
  sharpe_ratio_of Numpy.sqrt15
    [mkEquityPoint 1 10000 10 (Fin 10); mkEquityPoint 2 10000 11 (Fin 10);
     mkEquityPoint 3 10000 12 (Fin 11)] = Fin 0.
Proof.
  apply (proj2 (constant_curve_has_zero_sharpe Numpy.sqrt15
           [mkEquityPoint 1 10000 10 (Fin 10); mkEquityPoint 2 10000 11 (Fin 10);
            mkEquityPoint 3 10000 12 (Fin 11)] 10000
           sqrt15_zero ltac:(discriminate) ltac:(simpl; lia)
           ltac:(repeat constructor))).
Defined.

(** ** Rounding *)






Section Rounding.
Variable np_sqrt : Q -> Q.


End Rounding.

(** Ties go to the even hundredth: 0.125 gives 0.12 and 0.375 gives 0.38. *)
Lemma round2_ties_to_even :
  round2 (1 # 8) == 12 # 100 /\ round2 (3 # 8) == 38 # 100.
Proof. split; vm_compute; reflexivity. Qed.


(** ** The account never goes into debt *)

Lemma broker_next_solvent (b : BackBroker) (bar : Bar) :
  order_matches_position b ->
  0 <= commission b <= 1 ->
  0 <= cash b ->
  sane_bar bar ->
  commission (fst (BackBroker_next b bar)) = commission b /\
  0 <= cash (fst (BackBroker_next b bar)) /\
  0 <= value (fst (BackBroker_next b bar)).
Proof.
  intros [Hsize Hsub] [Hk0 Hk1] Hc [Ho Hcl].
  destruct b as [c k [sz pp] sub v]. cbn [commission cash position pos_size submitted] in *.
  destruct Hsub as [Hs | [[Hz [pc Hs]] | [Hz [pc Hs]]]]; subst sub.
  - rewrite broker_next_idle by reflexivity. cbn.
    repeat split; try assumption.
    unfold getvaluesize. destruct Hsize as [-> | ->].
    + change (inject_Z 0) with 0. lra.
    + change (inject_Z 1) with 1. lra.
  - subst sz. rewrite broker_next_buy.
    destruct (Qle_bool 0 (cash_after_buy c k pc)) eqn:E1; cbn [andb].
    + destruct (Qlt_bool (cash_after_buy c k (bar_open bar)) 0) eqn:E2; cbn [negb fst].
      * cbn. repeat split; try assumption.
        unfold getvaluesize. change (inject_Z 0) with 0. lra.
      * assert (H0 : 0 <= cash_after_buy c k (bar_open bar)).
        { apply Qnot_lt_le. intro H. apply Qlt_bool_iff in H. congruence. }
        cbn. repeat split; try assumption.
        unfold getvaluesize. change (inject_Z 1) with 1. lra.
    + cbn. repeat split; try assumption.
      unfold getvaluesize. change (inject_Z 0) with 0. lra.
  - subst sz. rewrite broker_next_sell.
    pose proof (cash_after_sell_eq c k pp (bar_open bar)) as Es.
    assert (H0 : 0 <= cash_after_sell c k pp (bar_open bar)).
    { rewrite Es. nra. }
    destruct (Qle_bool 0 _); cbn.
    + repeat split; try assumption.
      unfold getvaluesize. change (inject_Z 0) with 0. lra.
    + repeat split; try assumption.
      unfold getvaluesize. change (inject_Z 1) with 1. lra.
Qed.

Lemma bar_step_solvent (rule : Rule) (mp : Z) (line : list pyfloat) (i : nat)
    (bar : Bar) (k : Q) (st : Cerebro.RunState) :
  0 <= k <= 1 ->
  sane_bar bar ->
  solvent k st ->
  solvent k (Cerebro.bar_step rule mp line i bar st).
Proof.
  intros Hk Hbar [Hinv [Hcom [Hc [Hv Hcurve]]]].
  destruct (broker_next_solvent (Cerebro.broker st) bar Hinv
              ltac:(rewrite Hcom; exact Hk) Hc Hbar) as [Hcom1 [Hc1 Hv1]].
  split; [now apply bar_step_inv|].
  rewrite bar_step_curve, bar_step_broker.
  destruct (mp <=? Z.of_nat (S i))%Z.
  - match goal with |- context [next ?r ?e ?s ?bb] =>
      pose proof (next_keeps r e s bb) as Hkeep end.
    cbv zeta in Hkeep. destruct Hkeep as [Hkc [_ [Hkv Hkk]]].
    rewrite Hkc, Hkv, Hkk, Hcom1.
    repeat split; try assumption.
    apply Forall_app. split; [exact Hcurve|].
    constructor; [exact Hv1 | constructor].
  - rewrite Hcom1, app_nil_r. repeat split; assumption.
Qed.

Lemma runonce_solvent (rule : Rule) (mp : Z) (line : list pyfloat) (k : Q)
    (bars : list Bar) :
  0 <= k <= 1 ->
  Forall sane_bar bars ->
  forall (i : nat) (st : Cerebro.RunState),
    solvent k st -> solvent k (Cerebro._runonce rule mp line i bars st).
Proof.
  intros Hk Hbars. induction Hbars as [| bar bars Hb _ IH]; intros i st H.
  - exact H.
  - cbn [Cerebro._runonce]. apply IH. now apply bar_step_solvent.
Qed.

Lemma round2_nonneg (q : Q) : 0 <= q -> 0 <= round2 q.
Proof.
  intro Hq. unfold round2. apply Qle_shift_div_l; [reflexivity|].
  rewrite Qmult_0_l. change 0 with (inject_Z 0). rewrite <- Zle_Qle.
  unfold round_half_even.
  assert (Hfl : (0 <= Qfloor (q * 100))%Z).
  { rewrite <- (Qfloor_Z 0). apply Qfloor_resp_le. change (inject_Z 0) with 0. lra. }
  repeat match goal with |- context [if ?b then _ else _] => destruct b end; lia.
Qed.

Section Solvency.
Variable np_sqrt : Q -> Q.

(** X13: when no bar has a negative open or close, the account stays
    solvent through the whole run: a buy that the cash does not cover is
    dropped, so the cash never goes below 0, and no point of the curve nor
    the final value is negative. *)
Theorem account_stays_solvent :
  forall (data : list Bar) (w : Z) (rule : Rule) (r : BacktestResponse.t),
    Forall sane_bar data ->
    run_backtest np_sqrt data w rule = Returned r ->
    Forall (fun p => 0 <= portfolio_value p) (BacktestResponse.equity_curve r) /\
    0 <= BacktestResponse.final_portfolio_value r /\
    exists st,
      Cerebro.run w rule initial_cash (1 # 1000) data = Returned st /\
      0 <= cash (Cerebro.broker st) /\
      forall pre post,
        data = pre ++ post ->
        exists line,
          0 <= cash (Cerebro.broker
                       (Cerebro._runonce rule (minperiod w) line 0 pre
                          (Cerebro.start initial_cash (1 # 1000)))) /\
          st = Cerebro._runonce rule (minperiod w) line 0 data
                 (Cerebro.start initial_cash (1 # 1000)).
Proof.
  intros data w rule r Hdata Hr.
  destruct (run_backtest_returned np_sqrt data w rule r Hr)
    as [st [Hrun [_ [Hc [_ [Hf _]]]]]].
  destruct (run_returned _ _ _ _ _ _ Hrun) as [line Hst].
  assert (Hk : 0 <= (1 # 1000) <= 1) by (split; discriminate).
  assert (Hstart : solvent (1 # 1000) (Cerebro.start initial_cash (1 # 1000))).
  { split; [apply start_inv|]. cbn. repeat split; try discriminate. constructor. }
  assert (Hs : solvent (1 # 1000) st).
  { rewrite Hst. apply runonce_solvent; assumption. }
  destruct Hs as [_ [_ [Hcash [Hval Hcurve]]]].
  rewrite Hc, Hf. split; [exact Hcurve|].
  split; [apply round2_nonneg; exact Hval|].
  exists st. split; [exact Hrun|]. split; [exact Hcash|].
  intros pre post Hsplit. exists line. split; [|exact Hst].
  assert (Hpre : Forall sane_bar pre).
  { rewrite Hsplit in Hdata. apply Forall_app in Hdata. apply Hdata. }
  apply (runonce_solvent rule (minperiod w) line (1 # 1000) pre Hk Hpre 0 _ Hstart).
Qed.

End Solvency.

Lemma account_stays_solvent_witness :
  Forall (fun p => 0 <= portfolio_value p) (BacktestResponse.equity_curve ex_cycle_response) /\
  0 <= BacktestResponse.final_portfolio_value ex_cycle_response.
Proof.
  pose proof (account_stays_solvent Numpy.sqrt15 ex_bars6 2 ex_cycle_rule
                ex_cycle_response
                ltac:(repeat constructor; discriminate)
                ltac:(vm_compute; reflexivity)) as H.
  split; [exact (proj1 H) | exact (proj1 (proj2 H))].
Defined.

(** ** Commission on the ledger *)






(** * Further properties of models.py and of the account routes *)

(** ** Ordering and limiting rows *)

Lemma insert_desc_perm {A} (key : A -> Z) (x : A) (l : list A) :
  Permutation (insert_desc key x l) (x :: l).
Proof.
  induction l as [| y l IH]; cbn [insert_desc].
  - apply Permutation_refl.
  - destruct (key y <? key x)%Z.
    + apply Permutation_refl.
    + apply perm_trans with (y :: x :: l).
      * now apply perm_skip.
      * apply perm_swap.
Qed.

Lemma order_by_desc_perm {A} (key : A -> Z) (l : list A) :
  Permutation (order_by_desc key l) l.
Proof.
  induction l as [| x l IH]; cbn.
  - apply Permutation_refl.
  - apply perm_trans with (x :: order_by_desc key l).
    + apply insert_desc_perm.
    + now apply perm_skip.
Qed.

Lemma insert_desc_sorted {A} (key : A -> Z) (x : A) (l : list A) :
  StronglySorted (fun a b => (key b <= key a)%Z) l ->
  StronglySorted (fun a b => (key b <= key a)%Z) (insert_desc key x l).
Proof.
  induction 1 as [| y l Hs IH Hy]; cbn [insert_desc].
  - constructor; constructor.
  - destruct (key y <? key x)%Z eqn:E.
    + apply Z.ltb_lt in E. constructor.
      * now constructor.
      * constructor; [lia|].
        eapply Forall_impl; [|exact Hy]. cbn. intros a Ha. lia.
    + apply Z.ltb_ge in E. constructor; [exact IH|].
      apply (Permutation_Forall (Permutation_sym (insert_desc_perm key x l))).
      constructor; [exact E | exact Hy].
Qed.

Lemma order_by_desc_sorted {A} (key : A -> Z) (l : list A) :
  StronglySorted (fun a b => (key b <= key a)%Z) (order_by_desc key l).
Proof.
  induction l as [| x l IH]; cbn.
  - constructor.
  - now apply insert_desc_sorted.
Qed.

Lemma firstn_sorted {A} (R : A -> A -> Prop) (n : nat) (l : list A) :
  StronglySorted R l -> StronglySorted R (firstn n l).
Proof.
  intro H. revert n. induction H as [| x l Hs IH Hx]; intro n.
  - rewrite firstn_nil. constructor.
  - destruct n; cbn [firstn]; [constructor|].
    constructor; [apply IH|].
    apply Forall_forall. intros y Hy.
    rewrite Forall_forall in Hx. apply Hx.
    rewrite <- (firstn_skipn n l). apply in_or_app. now left.
Qed.

Lemma firstn_in {A} (n : nat) (l : list A) (x : A) : In x (firstn n l) -> In x l.
Proof.
  intro H. rewrite <- (firstn_skipn n l). apply in_or_app. now left.
Qed.

Lemma limit_rows_returned {A} (n : Z) (l : list A) :
  (0 <= n)%Z -> limit_rows n l = Returned (firstn (Z.to_nat n) l).
Proof.
  intro H. unfold limit_rows.
  replace (n <? 0)%Z with false by (symmetry; apply Z.ltb_ge; exact H).
  reflexivity.
Qed.

(** X15: the history query gives back runs of that user only, at most
    [limit] of them, the newest first; when the user has no more than
    [limit] runs it gives all of them.  A negative limit is an error. *)
Theorem user_backtests_are_own_and_recent :
  forall (db : Database) (user_id limit : Z),
    ((limit < 0)%Z -> exists e, get_user_backtests db user_id limit = Raised e) /\
    ((0 <= limit)%Z ->
     exists rows,
       get_user_backtests db user_id limit = Returned rows /\
       (Z.of_nat (List.length rows) <= limit)%Z /\
       (forall run, In run rows ->
          In run (backtest_runs db) /\ BacktestRun.user_id run = Some user_id) /\
       StronglySorted
         (fun a b => (BacktestRun.created_at b <= BacktestRun.created_at a)%Z) rows /\
       ((Z.of_nat (List.length (filter (owned_by user_id) (backtest_runs db))) <= limit)%Z ->
        Permutation rows (filter (owned_by user_id) (backtest_runs db)))).
Proof.
  intros db user_id limit. split.
  - intro H. unfold get_user_backtests, limit_rows.
    apply Z.ltb_lt in H. rewrite H. eexists. reflexivity.
  - intro H. unfold get_user_backtests. rewrite limit_rows_returned by exact H.
    set (own := filter (owned_by user_id) (backtest_runs db)).
    eexists. split; [reflexivity|]. split.
    { rewrite length_firstn. lia. }
    split.
    { intros run Hin. apply firstn_in in Hin.
      apply (Permutation_in _ (order_by_desc_perm BacktestRun.created_at own)) in Hin.
      unfold own in Hin. apply filter_In in Hin. destruct Hin as [Hin Hown].
      split; [exact Hin|]. unfold owned_by in Hown.
      destruct (BacktestRun.user_id run) as [u|]; [|discriminate].
      apply Z.eqb_eq in Hown. now subst. }
    split.
    { apply firstn_sorted, order_by_desc_sorted. }
    intro Hall. rewrite firstn_all2.
    + apply order_by_desc_perm.
    + rewrite (Permutation_length (order_by_desc_perm BacktestRun.created_at own)). lia.
Qed.

Lemma popular_rows_count (tickers : list string) (t : string) (n : nat) :
  In (t, n) (map (fun t => (t, count_occ string_dec tickers t))
               (nodup string_dec tickers)) ->
  n = count_occ string_dec tickers t /\ (1 <= n)%nat.
Proof.
  intro H. apply in_map_iff in H. destruct H as [t' [Heq Hin]].
  inversion Heq; subst. split; [reflexivity|].
  apply nodup_In in Hin. apply (count_occ_In string_dec) in Hin. lia.
Qed.

Lemma sorted_app_between {A} (R : A -> A -> Prop) (l1 l2 : list A) :
  StronglySorted R (l1 ++ l2) ->
  forall a b, In a l1 -> In b l2 -> R a b.
Proof.
  induction l1 as [| x l1 IH]; intros Hs a b Ha Hb; [contradiction|].
  cbn in Hs. inversion Hs as [| ? ? Hs' Hx]; subst.
  destruct Ha as [Ha | Ha].
  - subst a. rewrite Forall_forall in Hx. apply Hx.
    apply in_or_app. now right.
  - now apply IH.
Qed.

Lemma count_occ_ticker (runs : list BacktestRun.t) (t : string) :
  count_occ string_dec (map BacktestRun.ticker runs) t =
  List.length (filter (fun r => String.eqb (BacktestRun.ticker r) t) runs).
Proof.
  induction runs as [| r l IH]; cbn; [reflexivity|].
  destruct (string_dec (BacktestRun.ticker r) t) as [He | Hne].
  - apply String.eqb_eq in He. rewrite He. cbn. now rewrite IH.
  - apply String.eqb_neq in Hne. rewrite Hne. exact IH.
Qed.

(** X16: the popular tickers are counted from the stored runs: every row
    carries a ticker that occurs among them together with the number of
    runs that have it, no ticker is listed twice, the rows come with the
    larger counts first and are at most [limit]; the route asks for 10.
    The rows are as many as the limit allows: [limit] of them, or one for
    each ticker where the stored runs have fewer tickers than that.  The
    ticker of a stored run is listed with its count, or else no listed
    ticker has fewer runs than it; so within the limit every ticker is
    listed. *)
Theorem popular_tickers_are_counted :
  forall (db : Database) (limit : Z),
    (0 <= limit)%Z ->
    exists rows,
      get_popular_tickers db limit = Returned rows /\
      (Z.of_nat (List.length rows) <= limit)%Z /\
      (forall t n, In (t, n) rows ->
         n = List.length (filter (fun r => String.eqb (BacktestRun.ticker r) t)
                            (backtest_runs db)) /\
         (1 <= n)%nat) /\
      NoDup (map fst rows) /\
      StronglySorted (fun a b => (snd b <= snd a)%nat) rows /\
      (limit = 10%Z -> popular_tickers_route db = Returned rows) /\
      (let runs_of := fun t =>
         List.length (filter (fun r => String.eqb (BacktestRun.ticker r) t)
                        (backtest_runs db)) in
       let distinct := nodup string_dec (map BacktestRun.ticker (backtest_runs db)) in
       List.length rows = Nat.min (Z.to_nat limit) (List.length distinct) /\
       (forall run, In run (backtest_runs db) ->
          In (BacktestRun.ticker run, runs_of (BacktestRun.ticker run)) rows \/
          (List.length rows = Z.to_nat limit /\
           forall t n, In (t, n) rows ->
             (runs_of (BacktestRun.ticker run) <= n)%nat)) /\
       ((Z.of_nat (List.length distinct) <= limit)%Z ->
        forall run, In run (backtest_runs db) ->
          In (BacktestRun.ticker run, runs_of (BacktestRun.ticker run)) rows)).
Proof.
  intros db limit H. unfold popular_tickers_route, get_popular_tickers.
  rewrite limit_rows_returned by exact H.
  set (tickers := map BacktestRun.ticker (backtest_runs db)).
  set (rows0 := map (fun t => (t, count_occ string_dec tickers t))
                  (nodup string_dec tickers)).
  set (key := fun tc : string * nat => Z.of_nat (snd tc)).
  assert (Hlen0 : List.length (order_by_desc key rows0)
                  = List.length (nodup string_dec tickers)).
  { rewrite (Permutation_length (order_by_desc_perm key rows0)).
    unfold rows0. apply length_map. }
  assert (Hstored : forall run, In run (backtest_runs db) ->
            In (BacktestRun.ticker run,
                List.length (filter (fun r => String.eqb (BacktestRun.ticker r)
                                                (BacktestRun.ticker run))
                               (backtest_runs db)))
               (order_by_desc key rows0)).
  { intros run Hin.
    apply (Permutation_in _ (Permutation_sym (order_by_desc_perm key rows0))).
    unfold rows0. rewrite <- count_occ_ticker. fold tickers.
    apply (in_map (fun t => (t, count_occ string_dec tickers t))).
    apply nodup_In. unfold tickers. now apply in_map. }
  eexists. split; [reflexivity|]. split.
  { rewrite length_firstn. lia. }
  split.
  { intros t n Hin. apply firstn_in in Hin.
    apply (Permutation_in _ (order_by_desc_perm key rows0)) in Hin.
    destruct (popular_rows_count tickers t n Hin) as [Hn H1]. split; [|exact H1].
    rewrite Hn. unfold tickers. apply count_occ_ticker. }
  split.
  { assert (Hnd : NoDup (map fst (order_by_desc key rows0))).
    { apply (Permutation_NoDup
               (Permutation_map fst (Permutation_sym (order_by_desc_perm key rows0)))).
      unfold rows0. rewrite map_map. cbn [fst]. rewrite map_id.
      apply NoDup_nodup. }
    rewrite <- (firstn_skipn (Z.to_nat limit) (order_by_desc key rows0)) in Hnd.
    rewrite map_app in Hnd. apply NoDup_app_remove_r in Hnd. exact Hnd. }
  split.
  { apply firstn_sorted.
    pose proof (order_by_desc_sorted key rows0) as Hs.
    clear -Hs. induction Hs as [| x l _ IH Hx]; constructor; [exact IH|].
    eapply Forall_impl; [|exact Hx]. unfold key. intros a Ha. lia. }
  split.
  { intro Hl. subst limit. rewrite limit_rows_returned by lia. reflexivity. }
  cbv zeta. fold tickers.
  split.
  { rewrite length_firstn, Hlen0. reflexivity. }
  split.
  { intros run Hin. pose proof (Hstored run Hin) as Hs.
    rewrite <- (firstn_skipn (Z.to_nat limit) (order_by_desc key rows0)) in Hs.
    apply in_app_or in Hs. destruct Hs as [Hs | Hs]; [now left|].
    right. split.
    - rewrite length_firstn. apply Nat.min_l.
      destruct (Nat.le_gt_cases (Z.to_nat limit)
                  (List.length (order_by_desc key rows0))) as [Hle | Hgt];
        [exact Hle|].
      rewrite skipn_all2 in Hs by lia. contradiction.
    - intros t n Hrow.
      pose proof (order_by_desc_sorted key rows0) as Hsorted.
      rewrite <- (firstn_skipn (Z.to_nat limit) (order_by_desc key rows0)) in Hsorted.
      pose proof (sorted_app_between _ _ _ Hsorted _ _ Hrow Hs) as Hle.
      unfold key in Hle. cbn [snd] in Hle. lia. }
  intros Hall run Hin. rewrite firstn_all2 by (rewrite Hlen0; lia).
  now apply Hstored.
Qed.

Lemma user_backtests_are_own_and_recent_witness :
  exists rows,
    get_user_backtests ex_database_with_run 1 20 = Returned rows /\
    (Z.of_nat (List.length rows) <= 20)%Z /\
    Permutation rows (filter (owned_by 1) (backtest_runs ex_database_with_run)).
Proof.
  destruct (proj2 (user_backtests_are_own_and_recent ex_database_with_run 1 20)
              ltac:(lia)) as [rows [Hr [Hl [_ [_ Hall]]]]].
  exists rows. split; [exact Hr|]. split; [exact Hl|].
  apply Hall. vm_compute. discriminate.
Defined.

(** With two runs on MSFT and one on AAPL stored, a limit of 1 lists MSFT
    with its two runs and leaves out AAPL, which has no more runs than the
    listed ticker. *)
Lemma popular_tickers_are_counted_witness :
  (exists rows,
     get_popular_tickers ex_database_with_run 10 = Returned rows /\
     (Z.of_nat (List.length rows) <= 10)%Z /\
     popular_tickers_route ex_database_with_run = Returned rows /\
     In ("AAPL"%string, 1%nat) rows) /\
  (exists rows,
     get_popular_tickers ex_database_three_runs 1 = Returned rows /\
     List.length rows = 1%nat /\
     In ("MSFT"%string, 2%nat) rows /\
     (forall t n, In (t, n) rows -> (1 <= n)%nat)).
Proof.
  split.
  - destruct (popular_tickers_are_counted ex_database_with_run 10 ltac:(lia))
      as [rows [Hr [Hl [_ [_ [_ [Hroute [_ [_ Hall]]]]]]]]].
    exists rows. split; [exact Hr|]. split; [exact Hl|].
    split; [apply Hroute; reflexivity|].
    assert (Hfew : (Z.of_nat
                      (List.length
                         (nodup string_dec
                            (map BacktestRun.ticker
                               (backtest_runs ex_database_with_run)))) <= 10)%Z)
      by (vm_compute; discriminate).
    pose proof (Hall Hfew) as Hin. clear Hall Hfew.
    remember (backtest_runs ex_database_with_run) as runs eqn:E.
    vm_compute in E. subst runs.
    exact (Hin _ (or_introl eq_refl)).
  - destruct (popular_tickers_are_counted ex_database_three_runs 1 ltac:(lia))
      as [rows [Hr [_ [Hcount [_ [_ [_ [Hlen [_ _]]]]]]]]].
    exists rows. split; [exact Hr|]. split; [exact Hlen|]. split.
    + vm_compute in Hr. inversion Hr. now left.
    + intros t n Hin. exact (proj2 (Hcount t n Hin)).
Defined.

(** ** Accounts *)

Lemma find_app_last {A} (f : A -> bool) (l : list A) (x : A) :
  find f (l ++ [x]) =
  match find f l with
  | Some y => Some y
  | None => if f x then Some x else None
  end.
Proof.
  induction l as [| y l IH]; cbn.
  - reflexivity.
  - destruct (f y); [reflexivity | exact IH].
Qed.

Lemma get_user_by_email_in (db : Database) (email : string) (u : User.t) :
  get_user_by_email db email = Some u ->
  In u (users db) /\ User.email u = email.
Proof.
  unfold get_user_by_email. intro H. apply find_some in H.
  destruct H as [Hin He]. apply String.eqb_eq in He. auto.
Qed.

Lemma get_user_by_email_none (db : Database) (email : string) :
  get_user_by_email db email = None ->
  ~ In email (map User.email (users db)).
Proof.
  unfold get_user_by_email. intros H Hin.
  apply in_map_iff in Hin. destruct Hin as [u [He Hu]].
  pose proof (find_none _ _ H u Hu) as Hf. cbn in Hf.
  apply String.eqb_neq in Hf. contradiction.
Qed.

Section AccountFacts.
Variable get_password_hash : string -> string -> string.
Variable verify_password : string -> string -> bool.
Variable jwt_encode : Payload -> string.
Variable jwt_decode : Z -> string -> option Payload.

(** X17: a login with an unknown address and a login with a wrong
    password are answered alike, with the same 401 and the same text; a
    token is given only for a stored address whose hash verifies. *)
Theorem login_failures_are_alike :
  forall (db : Database) (now : Z) (user : UserCreate),
    (forall tok,
       login_user verify_password jwt_encode db now user = Returned tok ->
       exists u,
         get_user_by_email db (uc_email user) = Some u /\
         verify_password (uc_password user) (User.hashed_password u) = true /\
         token_user_id tok = User.id u /\ token_type tok = "bearer"%string) /\
    (get_user_by_email db (uc_email user) = None \/
     (exists u,
        get_user_by_email db (uc_email user) = Some u /\
        verify_password (uc_password user) (User.hashed_password u) = false) ->
     login_user verify_password jwt_encode db now user =
       Raised (HTTPException 401 "Incorrect email or password")).
Proof.
  intros db now user. unfold login_user, authenticate_user. split.
  - intros tok H.
    destruct (get_user_by_email db (uc_email user)) as [u|]; [|discriminate].
    destruct (verify_password (uc_password user) (User.hashed_password u)) eqn:E;
      [|discriminate].
    inversion H; subst. exists u. repeat split; reflexivity || assumption.
  - intros [H | [u [H E]]]; rewrite H; [reflexivity|]. now rewrite E.
Qed.

(** X18: registering a new address stores one user with the next id and
    answers with a token for that id; the same address and password then
    log in as that user, every other address is looked up as before, and
    a second registration of the address is refused with 400 and changes
    nothing, whatever its password. *)
Theorem register_then_login :
  forall (db : Database) (now now' : Z) (salt : string) (user : UserCreate),
    get_user_by_email db (uc_email user) = None ->
    verify_password (uc_password user)
      (get_password_hash salt (uc_password user)) = true ->
    exists db' tok tok',
      register_user get_password_hash jwt_encode db now salt user
        = (db', Returned tok) /\
      token_user_id tok = (users_id_seq db + 1)%Z /\
      List.length (users db') = S (List.length (users db)) /\
      backtest_runs db' = backtest_runs db /\
      login_user verify_password jwt_encode db' now' user = Returned tok' /\
      token_user_id tok' = token_user_id tok /\
      (forall e, e <> uc_email user ->
         get_user_by_email db' e = get_user_by_email db e) /\
      (forall now2 salt2 password2,
         register_user get_password_hash jwt_encode db' now2 salt2
           (mkUserCreate (uc_email user) password2)
         = (db', Raised (HTTPException 400 "Email already registered"))).
Proof.
  intros db now now' salt user Hnew Hver.
  set (u := User.mk (users_id_seq db + 1)%Z (uc_email user)
              (get_password_hash salt (uc_password user)) true false now).
  assert (Hget : get_user_by_email
                   (mkDatabase (users db ++ [u]) (backtest_runs db)
                      (users_id_seq db + 1)%Z (backtest_runs_id_seq db))
                   (uc_email user) = Some u).
  { unfold get_user_by_email in *. cbn [users]. rewrite find_app_last, Hnew.
    cbn [User.email u]. now rewrite String.eqb_refl. }
  eexists. eexists. eexists. split.
  { unfold register_user, create_user. rewrite Hnew. reflexivity. }
  split; [reflexivity|]. split.
  { cbn [users]. rewrite length_app. cbn. lia. }
  split; [reflexivity|]. split.
  { unfold login_user, authenticate_user. fold u. rewrite Hget.
    cbn [User.hashed_password u]. rewrite Hver. reflexivity. }
  split; [reflexivity|]. split.
  { intros e He. unfold get_user_by_email. cbn [users]. rewrite find_app_last.
    destruct (find _ (users db)); [reflexivity|].
    cbn [User.email]. apply not_eq_sym in He. apply String.eqb_neq in He.
    now rewrite He. }
  intros now2 salt2 password2. unfold register_user. cbn [uc_email].
  fold u. rewrite Hget. reflexivity.
Qed.

(** X19: the token of a registration names the address in [sub] and
    expires 30 minutes after it was made; as long as the decoder accepts
    it, [get_current_user] answers with the row of the user who
    registered. *)
Theorem registration_token_authenticates :
  forall (db : Database) (now now' : Z) (salt : string) (user : UserCreate),
    get_user_by_email db (uc_email user) = None ->
    jwt_decode now'
      (jwt_encode (mkPayload (Some (uc_email user)) (now + 30 * 60)%Z))
      = Some (mkPayload (Some (uc_email user)) (now + 30 * 60)%Z) ->
    exists db' tok u,
      register_user get_password_hash jwt_encode db now salt user
        = (db', Returned tok) /\
      access_token tok =
        jwt_encode (mkPayload (Some (uc_email user)) (now + 30 * 60)%Z) /\
      get_current_user jwt_decode db' now' (access_token tok) = Returned u /\
      User.email u = uc_email user /\
      User.id u = token_user_id tok /\
      User.is_premium u = false.
Proof.
  intros db now now' salt user Hnew Hdec.
  set (u := User.mk (users_id_seq db + 1)%Z (uc_email user)
              (get_password_hash salt (uc_password user)) true false now).
  eexists. eexists. exists u. split.
  { unfold register_user, create_user. rewrite Hnew. reflexivity. }
  cbn [access_token]. split; [reflexivity|]. split.
  { unfold get_current_user, create_access_token.
    cbn [Z.eqb ACCESS_TOKEN_EXPIRE_MINUTES Z.mul].
    change (Pos.mul 30 60) with 1800%positive.
    change (30 * 60)%Z with 1800%Z in Hdec. rewrite Hdec. cbn [sub].
    unfold get_user_by_email in *. cbn [users]. rewrite find_app_last, Hnew.
    cbn [User.email u]. now rewrite String.eqb_refl. }
  repeat split.
Qed.

(** X20: [get_current_user] answers with a user only when the token
    decodes to a payload whose [sub] is the address of that stored user;
    a token that does not decode, has no [sub], or names nobody gets the
    same 401. *)
Theorem current_user_needs_valid_token :
  forall (db : Database) (now : Z) (token : string),
    (forall u,
       get_current_user jwt_decode db now token = Returned u ->
       exists payload,
         jwt_decode now token = Some payload /\
         sub payload = Some (User.email u) /\
         In u (users db)) /\
    (forall e,
       get_current_user jwt_decode db now token = Raised e ->
       e = credentials_exception) /\
    (jwt_decode now token = None ->
     get_current_user jwt_decode db now token = Raised credentials_exception).
Proof.
  intros db now token. unfold get_current_user.
  destruct (jwt_decode now token) as [payload|].
  - destruct (sub payload) as [email|] eqn:Es.
    + destruct (get_user_by_email db email) as [u|] eqn:Eg.
      * destruct (get_user_by_email_in db email u Eg) as [Hin He].
        repeat split; try (intros; discriminate).
        intros u' H. inversion H; subst u'. exists payload.
        rewrite He. repeat split; assumption.
      * repeat split; intros; try discriminate. now inversion H.
    + repeat split; intros; try discriminate. now inversion H.
  - repeat split; intros; try discriminate. now inversion H.
Qed.

End AccountFacts.

Lemma login_failures_are_alike_witness :
  login_user ex_verify ex_jwt_encode ex_database 5
    (mkUserCreate "ann@example.com" "guess")
  = Raised (HTTPException 401 "Incorrect email or password").
Proof.
  apply (proj2 (login_failures_are_alike ex_verify ex_jwt_encode ex_database 5
                  (mkUserCreate "ann@example.com" "guess"))).
  right. exists ex_ann_row. split; reflexivity.
Defined.

Lemma register_then_login_witness :
  exists db' tok tok',
    register_user ex_hash ex_jwt_encode empty_database 0 "s1" ex_ann
      = (db', Returned tok) /\
    token_user_id tok = 1%Z /\
    login_user ex_verify ex_jwt_encode db' 60 ex_ann = Returned tok' /\
    token_user_id tok' = token_user_id tok.
Proof.
  destruct (register_then_login ex_hash ex_verify ex_jwt_encode empty_database
              0 60 "s1" ex_ann eq_refl eq_refl)
    as [db' [tok [tok' [Hr [Hid [_ [_ [Hl [Hsame _]]]]]]]]].
  exists db', tok, tok'. repeat split; assumption.
Defined.

Lemma registration_token_authenticates_witness :
  exists db' tok u,
    register_user ex_hash ex_jwt_encode empty_database 0 "s1" ex_ann
      = (db', Returned tok) /\
    get_current_user ex_jwt_decode db' 600 (access_token tok) = Returned u /\
    User.email u = "ann@example.com"%string.
Proof.
  destruct (registration_token_authenticates ex_hash ex_jwt_encode ex_jwt_decode
              empty_database 0 600 "s1" ex_ann eq_refl eq_refl)
    as [db' [tok [u [Hr [_ [Hc [He _]]]]]]].
  exists db', tok, u. repeat split; assumption.
Defined.

Lemma current_user_needs_valid_token_witness :
  get_current_user ex_jwt_decode ex_database 600 "forged"
  = Raised credentials_exception.
Proof.
  apply (proj2 (proj2 (current_user_needs_valid_token ex_jwt_decode ex_database
                         600 "forged"))).
  reflexivity.
Defined.

(** ** Payments *)

Lemma find_unique_email (l : list User.t) (u : User.t) :
  NoDup (map User.email l) -> In u l ->
  find (fun v => String.eqb (User.email v) (User.email u)) l = Some u.
Proof.
  induction l as [| v l IH]; intros Hnd Hin; [contradiction|].
  cbn [map] in Hnd. inversion Hnd as [| ? ? Hnotin Hnd']; subst.
  cbn [find]. destruct Hin as [-> | Hin].
  - now rewrite String.eqb_refl.
  - destruct (String.eqb (User.email v) (User.email u)) eqn:E.
    + apply String.eqb_eq in E. exfalso. apply Hnotin. rewrite E.
      apply in_map. exact Hin.
    + now apply IH.
Qed.

Lemma set_premium_users (uid : Z) (db : Database) :
  map User.email (users (set_premium uid db)) = map User.email (users db) /\
  map User.id (users (set_premium uid db)) = map User.id (users db).
Proof.
  unfold set_premium. cbn [users]. rewrite !map_map. split; apply map_ext;
    intro u; destruct (User.id u =? uid)%Z; reflexivity.
Qed.

(** X21: the payment route makes the caller a premium user for any
    amount, zero and negative ones included, since nothing is checked or
    charged; the answer echoes the amount; all other users and all runs
    stay as they were, and a repeated call changes nothing more. *)
Theorem payment_intent_grants_premium :
  forall (db : Database) (payment : PaymentRequest) (u : User.t),
    NoDup (map User.email (users db)) ->
    NoDup (map User.id (users db)) ->
    In u (users db) ->
    let db' := fst (create_payment_intent db payment u) in
    let intent := snd (create_payment_intent db payment u) in
    get_user_by_email db' (User.email u) = Some (premium u) /\
    pi_amount intent = amount payment /\
    pi_status intent = "requires_payment_method"%string /\
    (forall v, In v (users db) -> User.id v <> User.id u -> In v (users db')) /\
    List.length (users db') = List.length (users db) /\
    backtest_runs db' = backtest_runs db /\
    (forall payment2,
       fst (create_payment_intent db' payment2 (premium u)) = db').
Proof.
  intros db payment u Hemails Hids Hin. cbv zeta. cbn [fst snd create_payment_intent].
  repeat split.
  - unfold get_user_by_email, set_premium. cbn [users].
    assert (Hfind : forall l,
              NoDup (map User.id l) -> NoDup (map User.email l) -> In u l ->
              find (fun v => String.eqb (User.email v) (User.email u))
                (map (fun v => if (User.id v =? User.id u)%Z then premium v else v) l)
              = Some (premium u)).
    { clear. induction l as [| v l IH]; intros Hi He Hin; [contradiction|].
      cbn [map] in Hi, He.
      inversion Hi as [| ? ? Hni Hi']; inversion He as [| ? ? Hne He']; subst.
      cbn [map find]. destruct Hin as [-> | Hin].
      - rewrite Z.eqb_refl. cbn [premium User.email]. now rewrite String.eqb_refl.
      - assert (Hv : (User.id v =? User.id u)%Z = false).
        { apply Z.eqb_neq. intro E. apply Hni. rewrite E. now apply in_map. }
        rewrite Hv.
        assert (Hv' : String.eqb (User.email v) (User.email u) = false).
        { apply String.eqb_neq. intro E. apply Hne. rewrite E. now apply in_map. }
        rewrite Hv'. now apply IH. }
    unfold premium in Hfind. apply Hfind; assumption.
  - intros v Hv Hne. unfold set_premium. cbn [users].
    apply in_map_iff. exists v. split; [|exact Hv].
    apply Z.eqb_neq in Hne. now rewrite Hne.
  - unfold set_premium. cbn [users]. apply length_map.
  - intro payment2. cbn [fst create_payment_intent premium User.id].
    unfold set_premium. cbn [users backtest_runs users_id_seq backtest_runs_id_seq].
    f_equal. rewrite map_map. apply map_ext. intro v.
    destruct (User.id v =? User.id u)%Z eqn:E; cbn [User.id]; now rewrite E.
Qed.

Lemma payment_intent_grants_premium_witness :
  get_user_by_email
    (fst (create_payment_intent ex_database (mkPaymentRequest (-5) "usd") ex_ann_row))
    "ann@example.com"
  = Some (premium ex_ann_row).
Proof.
  apply (proj1 (payment_intent_grants_premium ex_database
                  (mkPaymentRequest (-5) "usd") ex_ann_row
                  ltac:(repeat constructor; intros [])
                  ltac:(repeat constructor; intros [])
                  ltac:(left; reflexivity))).
Defined.

(** ** The authenticated backtest *)

Section SavedRuns.
Variable np_sqrt : Q -> Q.
Variable strptime : string -> option Z.
Variable yf_history : string -> string -> string -> outcome (list Bar).


(** X23: when the body of the route fails, nothing is stored, and the
    caller gets a 400 for a ValueError and a 500 otherwise, as from
    /backtest/test. *)
Theorem failed_backtest_is_not_saved :
  forall (db : Database) (now : Z) (execution_time : Q)
         (request : BacktestRequest) (u : User.t) (e : exn),
    handler_body np_sqrt strptime yf_history request = Raised e ->
    exists ex,
      backtest_strategy np_sqrt strptime yf_history db now execution_time request u
        = (db, Raised ex) /\
      test_backtest_strategy np_sqrt strptime yf_history request = Raised ex /\
      exists code detail,
        ex = HTTPException code detail /\ (code = 400%Z \/ code = 500%Z).
Proof.
  intros db now t request u e Hb.
  unfold backtest_strategy, test_backtest_strategy. rewrite Hb.
  destruct e; eexists; (split; [reflexivity|]); (split; [reflexivity|]);
    eexists; eexists; (split; [reflexivity|]); auto.
Qed.

End SavedRuns.


Lemma failed_backtest_is_not_saved_witness :
  exists ex,
    backtest_strategy Numpy.sqrt15 ex_strptime ex_history ex_database 100 (3 # 2)
      ex_request_zero ex_ann_row
    = (ex_database, Raised ex).
Proof.
  destruct (failed_backtest_is_not_saved Numpy.sqrt15 ex_strptime ex_history
              ex_database 100 (3 # 2) ex_request_zero ex_ann_row ZeroDivisionError
              ltac:(vm_compute; reflexivity))
    as [ex [Hs _]].
  exists ex. exact Hs.
Defined.

(** ** Ids and addresses stay unique *)

Lemma NoDup_snoc {A} (l : list A) (x : A) :
  NoDup l -> ~ In x l -> NoDup (l ++ [x]).
Proof.
  intros Hl Hx. apply (Permutation_NoDup (Permutation_cons_append l x)).
  now constructor.
Qed.

Lemma fresh_id_not_in {A} (id : A -> Z) (seq : Z) (l : list A) :
  Forall (fun r => (id r <= seq)%Z) l -> ~ In (seq + 1)%Z (map id l).
Proof.
  intros H Hin. apply in_map_iff in Hin. destruct Hin as [r [He Hr]].
  rewrite Forall_forall in H. specialize (H r Hr). lia.
Qed.

Lemma Forall_le_snoc {A} (id : A -> Z) (seq : Z) (l : list A) (x : A) :
  Forall (fun r => (id r <= seq)%Z) l -> id x = (seq + 1)%Z ->
  Forall (fun r => (id r <= seq + 1)%Z) (l ++ [x]).
Proof.
  intros H Hx. apply Forall_app. split.
  - eapply Forall_impl; [|exact H]. cbn. intros. lia.
  - constructor; [lia | constructor].
Qed.

Section WellFormed.
Variable get_password_hash : string -> string -> string.
Variable jwt_encode : Payload -> string.
Variable np_sqrt : Q -> Q.
Variable strptime : string -> option Z.
Variable yf_history : string -> string -> string -> outcome (list Bar).

(** X24: the routes that write keep the tables in order: starting from a
    database in which no address and no id occurs twice and every id has
    come from its sequence, the database after a registration, after an
    authenticated backtest and after a payment is again such a database,
    whatever these calls answer. *)
Theorem routes_keep_ids_and_emails_unique :
  forall (db : Database),
    well_formed db ->
    (forall now salt user,
       well_formed (fst (register_user get_password_hash jwt_encode db now salt user))) /\
    (forall now execution_time request u,
       well_formed
         (fst (backtest_strategy np_sqrt strptime yf_history db now
                 execution_time request u))) /\
    (forall payment u,
       well_formed (fst (create_payment_intent db payment u))).
Proof.
  intros db [He [Hi [Hiseq [Hr Hrseq]]]].
  assert (Hwf : well_formed db) by (repeat split; assumption).
  split; [|split].
  - intros now salt user. unfold register_user, create_user.
    destruct (get_user_by_email db (uc_email user)) eqn:Eg; [exact Hwf|].
    cbn [fst]. unfold well_formed.
    cbn [users backtest_runs users_id_seq backtest_runs_id_seq].
    rewrite !map_app. cbn [map User.email User.id].
    repeat split.
    + apply NoDup_snoc; [exact He|]. now apply get_user_by_email_none.
    + apply NoDup_snoc; [exact Hi|]. now apply fresh_id_not_in.
    + now apply Forall_le_snoc.
    + exact Hr.
    + exact Hrseq.
  - intros now t request u. unfold backtest_strategy.
    destruct (handler_body np_sqrt strptime yf_history request) as [results | e].
    + cbn [save_backtest_run fst]. unfold well_formed.
      cbn [users backtest_runs users_id_seq backtest_runs_id_seq].
      rewrite map_app. cbn [map BacktestRun.id].
      repeat split; try assumption.
      * apply NoDup_snoc; [exact Hr|]. now apply fresh_id_not_in.
      * now apply Forall_le_snoc.
    + destruct e; exact Hwf.
  - intros payment u. cbn [create_payment_intent fst].
    destruct (set_premium_users (User.id u) db) as [Hem Hid].
    unfold well_formed. rewrite Hem, Hid.
    repeat split; try assumption.
    unfold set_premium. cbn [users users_id_seq].
    apply Forall_map. eapply Forall_impl; [|exact Hiseq].
    intros v Hv. destruct (User.id v =? User.id u)%Z; exact Hv.
Qed.

End WellFormed.

Lemma routes_keep_ids_and_emails_unique_witness :
  well_formed ex_database.
Proof.
  apply (proj1 (routes_keep_ids_and_emails_unique ex_hash ex_jwt_encode
                  Numpy.sqrt15 ex_strptime ex_history empty_database
                  ltac:(repeat split; constructor)) 0%Z "s1"%string ex_ann).
Defined.
